(** * hyperad: the content builders and the request facade

    A shallow embedding of [src/hyperad/contents.py] and
    [src/hyperad/app.py].  Python values are an inductive type, a [dict] is
    an association list in insertion order, and a method that can raise
    returns a [result].  Methods that assign to [self] thread the instance
    explicitly. *)

From Stdlib Require Import ZArith String Ascii List Bool DecimalString Lia.
Import ListNotations.
Open Scope string_scope.

#[local] Set Warnings "-register-all".

(** ** Python values *)

(** [str] and [bytes]; a character stands for one code point below 256. *)
Inductive text : Type :=
| Str (s : string)
| Bytes (b : string).

Definition text_eqb (a b : text) : bool :=
  match a, b with
  | Str x, Str y => String.eqb x y
  | Bytes x, Bytes y => String.eqb x y
  | _, _ => false
  end.

(** A [float] is kept by its [repr]; the three special values are apart. *)
Inductive pyfloat : Type :=
| Finite (repr : string)
| NaN
| PosInf
| NegInf.

(** What [FileContent.__init__] asks of an object that is none of the
    built-in values: is it an [io.TextIOBase], another [io.IOBase], some
    other object with [__iter__], or none of these. *)
Inductive oclass : Type :=
| TextIO
| OtherIO
| Iterable
| Opaque.

(** The [name] attribute of an object: a plain value or a callable, each
    yielding a [str] or [None]. *)
Inductive name_attr : Type :=
| NameValue (v : option string)
| NameCallable (ret : option string).

Record pyobject : Type := mkObject {
  obj_id : nat;
  obj_type : string;
  obj_class : oclass;
  obj_name : option name_attr
}.

Inductive pyval : Type :=
| PNone
| PBool (b : bool)
| PInt (z : Z)
| PFloat (f : pyfloat)
| PText (t : text)
| PList (l : list pyval)
| PTuple (l : list pyval)
| PDict (d : list (text * pyval))
| PObj (o : pyobject).

Definition PStr (s : string) : pyval := PText (Str s).

(** ** Exceptions *)

(** [DuplicateValue] is imported from [hyperad.errors]; its message is
    ["Duplicated key (k)"] and the key [k] is kept as it is. *)
Inductive exn : Type :=
| TypeError (msg : string)
| ValueError (msg : string)
| KeyError (key : text)
| AttributeError (msg : string)
| DuplicateValue (key : text).

Inductive result (A : Type) : Type :=
| Ok (a : A)
| Raise (e : exn).

Arguments Ok {A} a.
Arguments Raise {A} e.

Definition bind {A B : Type} (r : result A) (k : A -> result B) : result B :=
  match r with
  | Ok a => k a
  | Raise e => Raise e
  end.

Notation "x <- r ;; k" := (bind r (fun x => k))
  (at level 61, r at next level, right associativity).

Definition is_ok {A : Type} (r : result A) : bool :=
  match r with Ok _ => true | Raise _ => false end.

(** ** Dictionaries *)

Module Dict.

Definition t (V : Type) : Type := list (text * V).

Section Ops.
Context {V : Type}.

(** [k in d.keys()] *)
Fixpoint mem (k : text) (d : t V) : bool :=
  match d with
  | [] => false
  | (k', _) :: r => text_eqb k k' || mem k r
  end.

(** [d.get(k)] *)
Fixpoint get (k : text) (d : t V) : option V :=
  match d with
  | [] => None
  | (k', v) :: r => if text_eqb k k' then Some v else get k r
  end.

(** [d[k] = v]: an existing key keeps its place, a new one goes last. *)
Fixpoint set (k : text) (v : V) (d : t V) : t V :=
  match d with
  | [] => [(k, v)]
  | (k', v') :: r =>
      if text_eqb k k' then (k', v) :: r else (k', v') :: set k v r
  end.

(** [del d[k]] *)
Fixpoint remove (k : text) (d : t V) : t V :=
  match d with
  | [] => []
  | (k', v') :: r =>
      if text_eqb k k' then remove k r else (k', v') :: remove k r
  end.

(** [d.update(e)] *)
Definition update (d e : t V) : t V :=
  fold_left (fun acc kv => set (fst kv) (snd kv) acc) e d.

(** [d.pop(k, None)]: the value and the dictionary left. *)
Definition pop (k : text) (d : t V) : option V * t V :=
  (get k d, remove k d).

Definition keys (d : t V) : list text := map fst d.

End Ops.

End Dict.

(** ** The constants of [hyperad.constants] *)

(** Modelled from the spec: [hyperad/constants.py] is missing; the
    content types are the ones the spec names. *)
Definition APPLICATION_JSON : string := "application/json".
(** Modelled from the spec: [hyperad/constants.py] is missing. *)
Definition MULTIPART_FORM_DATA : string := "multipart/form-data".
(** Modelled from the spec: [hyperad/constants.py] is missing. *)
Definition TEXT_PLAIN : string := "text/plain".
(** Modelled from the spec: [hyperad/constants.py] is missing. *)
Definition APPLICATION_X_WWW_FORM_URLENCODED : string :=
  "application/x-www-form-urlencoded".
(** Modelled from the spec: [hyperad/constants.py] is missing. *)
Definition APPLICATION_OCTET_STREAM : string := "application/octet-stream".
(** Modelled from the spec: [hyperad/constants.py] is missing; the header
    names are the ones of the spec's glossary. *)
Definition CONTENT_TYPE : string := "Content-Type".
(** Modelled from the spec: [hyperad/constants.py] is missing. *)
Definition CONTENT_DISPOSITION : string := "Content-Disposition".

(** ** [json.dumps] *)

Module Json.

Definition dq : string := String "034" EmptyString.

Definition hex_digit (n : nat) : ascii :=
  match n with
  | 0 => "0" | 1 => "1" | 2 => "2" | 3 => "3" | 4 => "4"
  | 5 => "5" | 6 => "6" | 7 => "7" | 8 => "8" | 9 => "9"
  | 10 => "a" | 11 => "b" | 12 => "c" | 13 => "d" | 14 => "e"
  | _ => "f"
  end%char.

(** ['\\u{0:04x}'.format(n)] for [n < 256] *)
Definition escape_u (n : nat) : string :=
  "\u00" ++ String (hex_digit (n / 16)) (String (hex_digit (n mod 16)) EmptyString).

(** The replacement of one character in [encode_basestring_ascii]:
    backslash, the quote and the five short escapes of [ESCAPE_DCT],
    everything outside [' '..'~'] as [\uXXXX]. *)
Definition escape_char (c : ascii) : string :=
  let n := nat_of_ascii c in
  if Nat.eqb n 92 then "\\"
  else if Nat.eqb n 34 then "\" ++ dq
  else if Nat.eqb n 8 then "\b"
  else if Nat.eqb n 12 then "\f"
  else if Nat.eqb n 10 then "\n"
  else if Nat.eqb n 13 then "\r"
  else if Nat.eqb n 9 then "\t"
  else if (Nat.leb 32 n && Nat.leb n 126)%bool then String c EmptyString
  else escape_u n.

Fixpoint escape (s : string) : string :=
  match s with
  | EmptyString => EmptyString
  | String c r => escape_char c ++ escape r
  end.

Definition encode_str (s : string) : string := dq ++ escape s ++ dq.

(** [int.__repr__]; the digit limit of the conversion in recent
    interpreters and the recursion limit of the encoder are not part of
    the model. *)
Definition encode_int (z : Z) : string := NilZero.string_of_int (Z.to_int z).

(** [floatstr]: the [repr] of a finite float; a special value is written
    out when [allow_nan] holds and is a [ValueError] otherwise. *)
Definition encode_float (allow_nan : bool) (f : pyfloat) : result string :=
  match f with
  | Finite r => Ok r
  | NaN =>
      if allow_nan then Ok "NaN"
      else Raise (ValueError "Out of range float values are not JSON compliant")
  | PosInf =>
      if allow_nan then Ok "Infinity"
      else Raise (ValueError "Out of range float values are not JSON compliant")
  | NegInf =>
      if allow_nan then Ok "-Infinity"
      else Raise (ValueError "Out of range float values are not JSON compliant")
  end.

(** A key of a [dict]: a [str] is encoded, [bytes] is a [TypeError]. *)
Definition encode_key (k : text) : result string :=
  match k with
  | Str s => Ok (encode_str s)
  | Bytes _ =>
      Raise (TypeError "keys must be str, int, float, bool or None, not bytes")
  end.

Definition not_serializable (type_name : string) : exn :=
  TypeError ("Object of type " ++ type_name ++ " is not JSON serializable").

(** [json.dumps(v, allow_nan=allow_nan)] with the default separators.
    The encoder walks the value left to right and the first error
    ends it. *)
Fixpoint dumps (allow_nan : bool) (v : pyval) {struct v} : result string :=
  match v with
  | PNone => Ok "null"
  | PBool true => Ok "true"
  | PBool false => Ok "false"
  | PInt z => Ok (encode_int z)
  | PFloat f => encode_float allow_nan f
  | PText (Str s) => Ok (encode_str s)
  | PText (Bytes _) => Raise (not_serializable "bytes")
  | PList l | PTuple l =>
      chunks <-
        (fix items (l : list pyval) : result (list string) :=
           match l with
           | [] => Ok []
           | x :: r =>
               s <- dumps allow_nan x ;;
               rest <- items r ;;
               Ok (s :: rest)
           end) l ;;
      Ok ("[" ++ String.concat ", " chunks ++ "]")
  | PDict d =>
      chunks <-
        (fix items (d : list (text * pyval)) : result (list string) :=
           match d with
           | [] => Ok []
           | (k, x) :: r =>
               ks <- encode_key k ;;
               s <- dumps allow_nan x ;;
               rest <- items r ;;
               Ok ((ks ++ ": " ++ s) :: rest)
           end) d ;;
      Ok ("{" ++ String.concat ", " chunks ++ "}")
  | PObj o => Raise (not_serializable (obj_type o))
  end.

End Json.

Definition jsondumps : bool -> pyval -> result string := Json.dumps.

(** ** [os.path.split] *)

Module Path.

Definition sep : ascii := "/"%char.

(** [s.rfind(c)]; [None] stands for [-1]. *)
Fixpoint rfind (c : ascii) (s : string) : option nat :=
  match s with
  | EmptyString => None
  | String a r =>
      match rfind c r with
      | Some n => Some (S n)
      | None => if Ascii.eqb a c then Some 0 else None
      end
  end.

(** [s[:i]] *)
Fixpoint take (i : nat) (s : string) : string :=
  match i, s with
  | S j, String a r => String a (take j r)
  | _, _ => EmptyString
  end.

(** [s[i:]] *)
Fixpoint drop (i : nat) (s : string) : string :=
  match i, s with
  | S j, String _ r => drop j r
  | _, _ => s
  end.

(** [s.rstrip(c)] *)
Fixpoint rstrip (c : ascii) (s : string) : string :=
  match s with
  | EmptyString => EmptyString
  | String a r =>
      match rstrip c r with
      | EmptyString => if Ascii.eqb a c then EmptyString else String a EmptyString
      | r' => String a r'
      end
  end.

(** [s == c * len(s)] *)
Fixpoint all_char (c : ascii) (s : string) : bool :=
  match s with
  | EmptyString => true
  | String a r => Ascii.eqb a c && all_char c r
  end.

Definition is_empty (s : string) : bool :=
  match s with EmptyString => true | _ => false end.

(** [posixpath.split]: cut after the last slash; the head loses its
    trailing slashes unless it is made of slashes only. *)
Definition split (p : string) : string * string :=
  let i := match rfind sep p with Some n => S n | None => 0 end in
  let head := take i p in
  let tail := drop i p in
  let head :=
    if negb (is_empty head) && negb (all_char sep head)
    then rstrip sep head else head in
  (head, tail).

Fixpoint contains (c : ascii) (s : string) : bool :=
  match s with
  | EmptyString => false
  | String a r => Ascii.eqb a c || contains c r
  end.

End Path.

(** ** The [Content] classes *)

(** An instance of one of the five classes of [contents.py], by its
    attributes, or of a user-defined subclass that overrides nothing. *)
Inductive content : Type :=
| ParamContent (_name _value : text)
| FieldContent (_name _value : text)
| FileContent (_name : text) (_file : pyval) (_filename _enctype : string)
| JSONContent (_name : text) (_json : pyval)
| MultiContent (_name : text) (_content_list : list content) (_enctype : string)
| Subclass (class_name : string) (base : content).

Inductive pyclass : Type :=
| ParamContentT
| FieldContentT
| FileContentT
| JSONContentT
| MultiContentT
| UserClass (class_name : string) (base : pyclass).

Fixpoint pyclass_eqb (a b : pyclass) : bool :=
  match a, b with
  | ParamContentT, ParamContentT => true
  | FieldContentT, FieldContentT => true
  | FileContentT, FileContentT => true
  | JSONContentT, JSONContentT => true
  | MultiContentT, MultiContentT => true
  | UserClass n x, UserClass m y => String.eqb n m && pyclass_eqb x y
  | _, _ => false
  end.

(** [type(obj)] *)
Fixpoint type_of (c : content) : pyclass :=
  match c with
  | ParamContent _ _ => ParamContentT
  | FieldContent _ _ => FieldContentT
  | FileContent _ _ _ _ => FileContentT
  | JSONContent _ _ => JSONContentT
  | MultiContent _ _ _ => MultiContentT
  | Subclass n b => UserClass n (type_of b)
  end.

Fixpoint issubclass (a b : pyclass) : bool :=
  pyclass_eqb a b ||
  match a with
  | UserClass _ base => issubclass base b
  | _ => false
  end.

(** [isinstance(obj, cls)] and [isinstance(obj, (cls, ...))] *)
Definition isinstance (c : content) (cls : pyclass) : bool :=
  issubclass (type_of c) cls.

Definition isinstance_any (c : content) (classes : list pyclass) : bool :=
  existsb (isinstance c) classes.

Definition type_name (cls : pyclass) : string :=
  match cls with
  | ParamContentT => "ParamContent"
  | FieldContentT => "FieldContent"
  | FileContentT => "FileContent"
  | JSONContentT => "JSONContent"
  | MultiContentT => "MultiContent"
  | UserClass n _ => n
  end.

(** [Content.name] *)
Fixpoint name (c : content) : text :=
  match c with
  | ParamContent n _ | FieldContent n _ | FileContent n _ _ _
  | JSONContent n _ | MultiContent n _ _ => n
  | Subclass _ b => name b
  end.

(** [enctype]: [None] for a parameter, a [str] otherwise. *)
Fixpoint enctype (c : content) : pyval :=
  match c with
  | ParamContent _ _ => PNone
  | FieldContent _ _ => PStr APPLICATION_X_WWW_FORM_URLENCODED
  | FileContent _ _ _ e => PStr e
  | JSONContent _ _ => PStr APPLICATION_JSON
  | MultiContent _ _ e => PStr e
  | Subclass _ b => enctype b
  end.

(** [FileContent.filename]; the other classes have no such method. *)
Fixpoint filename (c : content) : result pyval :=
  match c with
  | FileContent _ _ f _ => Ok (PStr f)
  | Subclass _ b => filename b
  | _ => Raise (AttributeError "filename")
  end.

(** *** Constructors *)

Definition check_name (name : pyval) : result text :=
  match name with
  | PText t => Ok t
  | _ => Raise (TypeError "name is expected as a str or bytes object")
  end.

Definition ParamContent_init (name value : pyval) : result content :=
  n <- check_name name ;;
  match value with
  | PText v => Ok (ParamContent n v)
  | _ => Raise (TypeError "value is expected as a byte-like object")
  end.

Definition FieldContent_init (name value : pyval) : result content :=
  n <- check_name name ;;
  match value with
  | PText v => Ok (FieldContent n v)
  | _ => Raise (TypeError "value is expected as a byte-like object")
  end.

(** [isinstance(file, (str, bytes))] *)
Definition is_str_or_bytes (v : pyval) : bool :=
  match v with PText _ => true | _ => false end.

(** [isinstance(file, io.IOBase)] *)
Definition is_iobase (v : pyval) : bool :=
  match v with
  | PObj o => match obj_class o with TextIO | OtherIO => true | _ => false end
  | _ => false
  end.

(** [hasattr(file, "__iter__")] *)
Definition has_iter (v : pyval) : bool :=
  match v with
  | PText _ | PList _ | PTuple _ | PDict _ => true
  | PObj o => match obj_class o with Opaque => false | _ => true end
  | _ => false
  end.

(** [isinstance(file, (io.TextIOBase, str))] *)
Definition is_text_like (v : pyval) : bool :=
  match v with
  | PText (Str _) => true
  | PObj o => match obj_class o with TextIO => true | _ => false end
  | _ => false
  end.

(** [getattr(file, "name")] when [hasattr(file, "name")]; none of the
    built-in values has the attribute. *)
Definition name_attribute (v : pyval) : option name_attr :=
  match v with
  | PObj o => obj_name o
  | _ => None
  end.

(** The file name [FileContent.__init__] works with: the argument when
    it is not [None], else what the [name] attribute of the file gives. *)
Definition resolve_filename (file : pyval) (filename : option string)
  : option string :=
  match filename, name_attribute file with
  | None, Some (NameCallable ret) => ret
  | None, Some (NameValue v) => v
  | _, _ => filename
  end.

Section Constructors.

(** [mimetypes.guess_type(filename)[0]] of the standard library. *)
Variable guess_type : string -> option string.

Definition FileContent_init (name file : pyval) (filename : option string)
  : result content :=
  n <- check_name name ;;
  let is_file := is_str_or_bytes file || is_iobase file || has_iter file in
  if negb is_file then
    Raise (TypeError ("file is expected as a file-like object or "
                      ++ "byte-like or iterable or str object"))
  else
    match resolve_filename file filename with
    | None =>
        Raise (ValueError ("Please provide filename explicitly if "
                           ++ "file doesn't have name attribute"))
    | Some filename =>
        let _filename := snd (Path.split filename) in
        let _enctype :=
          match guess_type filename with
          | Some e => e
          | None =>
              if is_text_like file then TEXT_PLAIN
              else APPLICATION_OCTET_STREAM
          end in
        Ok (FileContent n file _filename _enctype)
    end.

End Constructors.

Definition JSONContent_init (name json : pyval) : result content :=
  n <- check_name name ;;
  match jsondumps false json with
  | Raise (ValueError _) =>
      Raise (ValueError "json is expected a serializable json object")
  | Raise e => Raise e
  | Ok _ => Ok (JSONContent n json)
  end.

(** The instance [MultiContent.__init__] leaves. *)
Record multi : Type := mkMulti {
  multi_name : text;
  content_list : list content;
  multi_enctype : string
}.

Definition MultiContent_init (name : pyval) : result multi :=
  n <- check_name name ;;
  Ok (mkMulti n [] APPLICATION_X_WWW_FORM_URLENCODED).

Definition as_content (m : multi) : content :=
  MultiContent (multi_name m) (content_list m) (multi_enctype m).

(** ** [MultiContent] *)

(** [v[k]] *)
Definition subscript (v : pyval) (k : text) : result pyval :=
  match v with
  | PDict d =>
      match Dict.get k d with
      | Some x => Ok x
      | None => Raise (KeyError k)
      end
  | _ => Raise (TypeError "object is not subscriptable")
  end.

Definition string_of_nat (n : nat) : string :=
  NilZero.string_of_uint (Nat.to_uint n).

Definition _extract (d : pyval) : result (text * pyval) :=
  match d with
  | PDict items =>
      if negb (Nat.eqb (length (Dict.keys items)) 1) then
        Raise (ValueError ("Only one-element dict can be extracted, "
                           ++ string_of_nat (length (Dict.keys items))
                           ++ " element(s) found."))
      else
        match Dict.keys items with
        | key :: _ => value <- subscript d key ;; Ok (key, value)
        | [] => Raise (KeyError (Str EmptyString))
        end
  | _ => Raise (AttributeError "keys")
  end.

Definition _create_or_append (d : Dict.t (list pyval)) (k : text) (v : pyval)
  : Dict.t (list pyval) :=
  if negb (Dict.mem k d) then Dict.update d [(k, [v])]
  else
    match Dict.get k d with
    | Some l => Dict.set k (l ++ [v])%list d
    | None => d
    end.

Definition _create_or_raise (d : Dict.t pyval) (k : text) (v : pyval)
  : result (Dict.t pyval) :=
  if Dict.mem k d then Raise (DuplicateValue k)
  else Ok (Dict.update d [(k, v)]).

Definition supported : list pyclass :=
  [ParamContentT; FieldContentT; FileContentT; JSONContentT].

Definition _exact_is_instance (obj : content) (classes : list pyclass) : bool :=
  if negb (isinstance_any obj classes) then false
  else existsb (fun cls => pyclass_eqb (type_of obj) cls) classes.

Definition unsupported_content (c : content) : exn :=
  TypeError ("Unsupported Content (" ++ type_name (type_of c) ++ ")").

(** [MultiContent.add]: the instance after the call and what the call
    gives, [None] or the exception that ended the loop. *)
Fixpoint add (contents : list content) (self : multi) : multi * result unit :=
  match contents with
  | [] => (self, Ok tt)
  | content :: rest =>
      if negb (_exact_is_instance content supported) then
        (self, Raise (unsupported_content content))
      else
        let self :=
          if negb (isinstance_any content [FieldContentT; ParamContentT])
          then mkMulti (multi_name self) (content_list self) MULTIPART_FORM_DATA
          else self in
        let self :=
          mkMulti (multi_name self) (content_list self ++ [content])%list
                  (multi_enctype self) in
        add rest self
  end.

(** The local dictionary [parameters] of [MultiContent._build], by its
    three keys. *)
Record parameters : Type := mkParameters {
  params : Dict.t (list pyval);
  data : Dict.t (list pyval);
  files : Dict.t pyval
}.

Definition lists (d : Dict.t (list pyval)) : Dict.t pyval :=
  map (fun kv => (fst kv, PList (snd kv))) d.

Definition to_pyval (p : parameters) : pyval :=
  PDict [(Str "params", PDict (lists (params p)));
         (Str "data", PDict (lists (data p)));
         (Str "files", PDict (files p))].

(** The body of the loop of [MultiContent._build] for one member;
    [built] is [content.build()], looked at only where the code calls it. *)
Definition collect (content : content) (built : result pyval) (p : parameters)
  : result parameters :=
  p <- (if isinstance content ParamContentT then
          b <- built ;;
          d <- subscript b (Str "params") ;;
          nv <- _extract d ;;
          Ok (mkParameters (_create_or_append (params p) (fst nv) (snd nv))
                           (data p) (files p))
        else Ok p) ;;
  p <- (if isinstance content FieldContentT then
          b <- built ;;
          d <- subscript b (Str "data") ;;
          nv <- _extract d ;;
          Ok (mkParameters (params p)
                           (_create_or_append (data p) (fst nv) (snd nv))
                           (files p))
        else Ok p) ;;
  p <- (if isinstance content FileContentT then
          b <- built ;;
          file <- subscript b (Str "data") ;;
          fname <- filename content ;;
          let value := PTuple [fname; file; enctype content] in
          fs <- _create_or_raise (files p) (name content) value ;;
          Ok (mkParameters (params p) (data p) fs)
        else Ok p) ;;
  if isinstance content JSONContentT then
    b <- built ;;
    j <- subscript b (Str "json") ;;
    json <- jsondumps true j ;;
    let value := PTuple [PNone; PStr json; PStr APPLICATION_JSON] in
    fs <- _create_or_raise (files p) (name content) value ;;
    Ok (mkParameters (params p) (data p) fs)
  else Ok p.

(** [Content.build], which is [_build] of the class of the instance. *)
Fixpoint build (c : content) : result pyval :=
  match c with
  | ParamContent n v => Ok (PDict [(Str "params", PDict [(n, PText v)])])
  | FieldContent n v => Ok (PDict [(Str "data", PDict [(n, PText v)])])
  | FileContent _ file fname e =>
      Ok (PDict [(Str "data", file);
                 (Str "headers",
                  PDict [(Str CONTENT_TYPE, PStr e);
                         (Str CONTENT_DISPOSITION,
                          PStr ("attachment; filename=" ++ fname))])])
  | JSONContent _ j => Ok (PDict [(Str "json", j)])
  | MultiContent _ l _ =>
      p <- (fix loop (l : list content) (p : parameters) : result parameters :=
              match l with
              | [] => Ok p
              | c :: r => p' <- collect c (build c) p ;; loop r p'
              end) l (mkParameters [] [] []) ;;
      Ok (to_pyval p)
  | Subclass _ b => build b
  end.

(** The loop of [MultiContent._build] from given [parameters]. *)
Fixpoint build_loop (l : list content) (p : parameters) : result parameters :=
  match l with
  | [] => Ok p
  | c :: r => p' <- collect c (build c) p ;; build_loop r p'
  end.

(** A method call on an instance: the instance after it and the result. *)
Definition method (A : Type) : Type := multi -> multi * result A.

Definition call_add (contents : list content) : method unit := add contents.

Definition call_build : method pyval :=
  fun self => (self, build (as_content self)).

(** [first; second] in Python: the second runs only if the first did
    not raise. *)
Definition seq {A B : Type} (first : method A) (second : method B) : method B :=
  fun self =>
    match first self with
    | (self', Ok _) => second self'
    | (self', Raise e) => (self', Raise e)
    end.

(** ** [App.crequest] *)

(** The truth value of a Python value, as [if headers] takes it.  An
    object stands for one that defines neither [__bool__] nor
    [__len__], which is true. *)
Definition truthy (v : pyval) : bool :=
  match v with
  | PNone => false
  | PBool b => b
  | PInt z => negb (Z.eqb z 0)
  | PFloat (Finite r) => negb (String.eqb r "0.0" || String.eqb r "-0.0")
  | PFloat _ => true
  | PText (Str s) | PText (Bytes s) => negb (Path.is_empty s)
  | PList l | PTuple l => match l with [] => false | _ => true end
  | PDict d => match d with [] => false | _ => true end
  | PObj _ => true
  end.

(** One element of the sequence [dict.update(other)] walks: it is taken
    as a sequence and must have two items, the key and the value; any
    other length is a [ValueError], an element that is no sequence a
    [TypeError].  The dictionaries here have [str] and [bytes] keys: a
    key of another type is left to the [TypeError] branch. *)
Definition update_pair (x : pyval) : result (text * pyval) :=
  match x with
  | PList [PText k; v] | PTuple [PText k; v] => Ok (k, v)
  | PList [_; _] | PTuple [_; _] =>
      Raise (TypeError "cannot convert dictionary update sequence element")
  | PText (Str (String a (String b EmptyString))) =>
      Ok (Str (String a EmptyString), PStr (String b EmptyString))
  | PDict [(k, _); (k', _)] => Ok (k, PText k')
  | PText (Bytes (String _ (String _ EmptyString))) =>
      Raise (TypeError "cannot convert dictionary update sequence element")
  | PList _ | PTuple _ | PText _ | PDict _ =>
      Raise (ValueError "dictionary update sequence element has a length other than 2")
  | _ =>
      Raise (TypeError "cannot convert dictionary update sequence element")
  end.

(** The items [dict.update(other)] takes from [other]: those of a
    dictionary, or the pairs of a sequence, element by element.  The
    elements of a [str] are its characters, of length 1 each, so a
    [str] that is not empty is a [ValueError].  An object that is
    neither is left to the [TypeError] branch. *)
Fixpoint pairs (l : list pyval) : result (Dict.t pyval) :=
  match l with
  | [] => Ok []
  | x :: r =>
      kv <- update_pair x ;;
      rest <- pairs r ;;
      Ok (kv :: rest)
  end.

Definition update_items (other : pyval) : result (Dict.t pyval) :=
  match other with
  | PDict d => Ok d
  | PList l | PTuple l => pairs l
  | PText (Str (String _ _)) =>
      Raise (ValueError "dictionary update sequence element #0 has length 1; 2 is required")
  | PText (Str EmptyString) | PText (Bytes EmptyString) => Ok []
  | _ => Raise (TypeError "object is not iterable")
  end.

Definition invalid_params : list text :=
  [Str "data"; Str "json"; Str "files"; Str "params"].

Definition invalid_params_message : string :=
  "Don't use these parameters ('data', 'json', 'files', 'params'). They "
  ++ "have already been included in `Content` object.".

Section App.

(** The response type and [Session.request] of the HTTP engine. *)
Variable response : Type.
Variable request : pyval -> pyval -> Dict.t pyval -> result response.

(** What a call does besides returning: it builds a content, it hands
    a request to the engine. *)
Inductive event : Type :=
| Built (c : content)
| Requested (method url : pyval) (parameters : Dict.t pyval).

(** [parameters["headers"].update(headers)] when [headers] is truthy
    and [parameters] has the key. *)
Definition merge_headers (parameters : Dict.t pyval) (headers : option pyval)
  : result (Dict.t pyval) :=
  match headers with
  | Some h =>
      if truthy h && Dict.mem (Str "headers") parameters then
        match Dict.get (Str "headers") parameters with
        | Some (PDict own) =>
            items <- update_items h ;;
            Ok (Dict.set (Str "headers") (PDict (Dict.update own items))
                         parameters)
        | _ => Raise (AttributeError "update")
        end
      else Ok parameters
  | None => Ok parameters
  end.

(** [App.crequest(method, url, content, **kwargs)]: the events in the
    order they happen and the response or the exception. *)
Definition crequest (method url : pyval) (content : content)
  (kwargs : Dict.t pyval) : list event * result response :=
  if existsb (fun name => Dict.mem name kwargs) invalid_params then
    ([], Raise (ValueError invalid_params_message))
  else
    match build content with
    | Raise e => ([Built content], Raise e)
    | Ok (PDict parameters) =>
        let (headers, kwargs) := Dict.pop (Str "headers") kwargs in
        match merge_headers parameters headers with
        | Raise e => ([Built content], Raise e)
        | Ok parameters =>
            let parameters := Dict.update parameters kwargs in
            ([Built content; Requested method url parameters],
             request method url parameters)
        end
    | Ok _ => ([Built content], Raise (AttributeError "keys"))
    end.

End App.

(** ** Induction on values *)

Section PyvalInduction.

Variable P : pyval -> Prop.
Hypothesis HNone : P PNone.
Hypothesis HBool : forall b, P (PBool b).
Hypothesis HInt : forall z, P (PInt z).
Hypothesis HFloat : forall f, P (PFloat f).
Hypothesis HText : forall t, P (PText t).
Hypothesis HList : forall l, Forall P l -> P (PList l).
Hypothesis HTuple : forall l, Forall P l -> P (PTuple l).
Hypothesis HDict : forall d, Forall (fun kv => P (snd kv)) d -> P (PDict d).
Hypothesis HObj : forall o, P (PObj o).

(** Induction on a value with the hypothesis for every item of a list,
    a tuple and a dictionary. *)
Fixpoint pyval_nested_ind (v : pyval) : P v :=
  match v with
  | PNone => HNone
  | PBool b => HBool b
  | PInt z => HInt z
  | PFloat f => HFloat f
  | PText t => HText t
  | PList l =>
      HList l
        ((fix all (l : list pyval) : Forall P l :=
            match l with
            | [] => Forall_nil _
            | x :: r => Forall_cons _ (pyval_nested_ind x) (all r)
            end) l)
  | PTuple l =>
      HTuple l
        ((fix all (l : list pyval) : Forall P l :=
            match l with
            | [] => Forall_nil _
            | x :: r => Forall_cons _ (pyval_nested_ind x) (all r)
            end) l)
  | PDict d =>
      HDict d
        ((fix all (d : list (text * pyval)) : Forall (fun kv => P (snd kv)) d :=
            match d with
            | [] => Forall_nil _
            | kv :: r => Forall_cons _ (pyval_nested_ind (snd kv)) (all r)
            end) d)
  | PObj o => HObj o
  end.

End PyvalInduction.

(** What the lemmas on [json.dumps] say of one value. *)
Definition lenient (v : pyval) : Prop :=
  forall s, jsondumps false v = Ok s -> jsondumps true v = Ok s.

Definition is_value_error (e : exn) : bool :=
  match e with ValueError _ => true | _ => false end.

Definition is_type_error (e : exn) : bool :=
  match e with TypeError _ => true | _ => false end.

Definition fails_well (a : bool) (v : pyval) : Prop :=
  forall e, jsondumps a v = Raise e ->
            is_value_error e || is_type_error e = true.

(** ** Vocabulary of the statements *)

(** Some key occurs twice. *)
Fixpoint has_dup (l : list text) : bool :=
  match l with
  | [] => false
  | x :: r => existsb (text_eqb x) r || has_dup r
  end.

Definition occurrences (k : text) (l : list text) : nat :=
  length (filter (text_eqb k) l).

(** The members that go to [files]: the files and the JSON values. *)
Definition is_part (c : content) : bool :=
  isinstance_any c [FileContentT; JSONContentT].

Definition part_names (l : list content) : list text :=
  map name (filter is_part l).

(** The values of the members of class [cls] named [n], in order. *)
Definition values_named (cls : pyclass) (n : text) (l : list content)
  : list pyval :=
  flat_map
    (fun c =>
       match c with
       | ParamContent m v | FieldContent m v =>
           if pyclass_eqb (type_of c) cls && text_eqb n m then [PText v] else []
       | _ => []
       end) l.

Definition some_if_any {A : Type} (l : list A) : option (list A) :=
  match l with [] => None | _ => Some l end.

(** What the constructor of the class has checked of the attributes:
    a JSON value went through [jsondumps] with [allow_nan=False]. *)
Fixpoint init_ok (c : content) : bool :=
  match c with
  | JSONContent _ j => is_ok (jsondumps false j)
  | MultiContent _ l _ => forallb init_ok l
  | Subclass _ b => init_ok b
  | _ => true
  end.

(** [json.dumps] over the items of a list and of a dictionary. *)
Fixpoint dumps_list (allow_nan : bool) (l : list pyval) : result (list string) :=
  match l with
  | [] => Ok []
  | x :: r =>
      s <- jsondumps allow_nan x ;;
      rest <- dumps_list allow_nan r ;;
      Ok (s :: rest)
  end.

Fixpoint dumps_items (allow_nan : bool) (d : list (text * pyval))
  : result (list string) :=
  match d with
  | [] => Ok []
  | (k, x) :: r =>
      ks <- Json.encode_key k ;;
      s <- jsondumps allow_nan x ;;
      rest <- dumps_items allow_nan r ;;
      Ok ((ks ++ ": " ++ s) :: rest)
  end.

(** A run of [add] calls on one instance; a call that raises leaves the
    instance as it is at the [raise]. *)
Definition add_calls (calls : list (list content)) (self : multi) : multi :=
  fold_left (fun self contents => fst (add contents self)) calls self.

(** [add(f1); build(); add(f2); build()] and [add(f1, f2); build()] *)
Definition one_by_one (f1 f2 : content) : method pyval :=
  seq (call_add [f1]) (seq call_build (seq (call_add [f2]) call_build)).

Definition both_at_once (f1 f2 : content) : method pyval :=
  seq (call_add [f1; f2]) call_build.

(** The end-to-end scenario of the spec: four members made by their
    constructors, added to [MultiContent("form")] in one call, built. *)
Definition end_to_end (guess_type : string -> option string) (stream : pyval)
  : result pyval :=
  p <- ParamContent_init (PStr "p") (PStr "1") ;;
  f <- FieldContent_init (PStr "f") (PStr "2") ;;
  d <- FileContent_init guess_type (PStr "doc") stream None ;;
  j <- JSONContent_init (PStr "meta") (PDict [(Str "a", PInt 1)]) ;;
  form <- MultiContent_init (PStr "form") ;;
  match add [p; f; d; j] form with
  | (form, Ok _) => build (as_content form)
  | (_, Raise e) => Raise e
  end.

(** A text stream opened on a file called [report.txt]. *)
Definition report_stream (id : nat) : pyval :=
  PObj (mkObject id "TextIOWrapper" TextIO
          (Some (NameValue (Some "report.txt")))).

(** A [guess_type] that knows the suffix [.txt] and nothing else, to run
    the constructors on examples. *)
Definition guess_txt (url : string) : option string :=
  let n := String.length url in
  if String.eqb (Path.drop (n - 4) url) ".txt" then Some "text/plain" else None.

(** The first key of [l] that is in [seen] or earlier in [l]. *)
Fixpoint first_dup_from (seen l : list text) : option text :=
  match l with
  | [] => None
  | x :: r =>
      if existsb (text_eqb x) seen then Some x
      else first_dup_from (seen ++ [x])%list r
  end.

(** [old] followed by [vs], where [None] is the absent key. *)
Definition append_values (old : option (list pyval)) (vs : list pyval)
  : option (list pyval) :=
  match old with
  | Some l => Some (l ++ vs)%list
  | None => some_if_any vs
  end.

(** Every member is an instance of exactly one of the four classes
    [add] lets in. *)
Definition all_supported (l : list content) : bool :=
  forallb (fun c => _exact_is_instance c supported) l.

(** Members for the examples: the two fields of [tests/test_app.py] that
    share the name [field2], and its file and JSON value, which share
    the name [file]. *)
Definition same_name_fields : list content :=
  [FieldContent (Str "field2") (Str "narutobaco");
   ParamContent (Str "field2") (Str "suboiz");
   FieldContent (Str "field2") (Str "sasuketamin")].

Definition same_name_parts : list content :=
  [FileContent (Str "file") (report_stream 0) "README.md" TEXT_PLAIN;
   FieldContent (Str "field2") (Str "sasuketamin");
   JSONContent (Str "file") (PDict [(Str "luffee", PStr "hancock")])].

(** The entry of [k] in the [headers] the caller passes, if any. *)
Definition override_lookup (h : option (Dict.t pyval)) (k : text) : option pyval :=
  match h with
  | Some d => Dict.get k d
  | None => None
  end.

Definition override_keys (h : option (Dict.t pyval)) : list text :=
  match h with
  | Some d => Dict.keys d
  | None => []
  end.

(** No key of [kwargs] is one of [data], [json], [files], [params]. *)
Definition valid_overrides (kwargs : Dict.t pyval) : bool :=
  negb (existsb (fun name => Dict.mem name kwargs) invalid_params).

(** An engine for the examples: it answers every request with 200. *)
Definition always_200 (method url : pyval) (parameters : Dict.t pyval)
  : result nat := Ok 200.

Definition readme_file : content :=
  FileContent (Str "file") (report_stream 0) "README.md" TEXT_PLAIN.

Definition extra_headers : Dict.t pyval :=
  [(Str "X-Extra", PStr "1"); (Str CONTENT_TYPE, PStr "text/markdown")].

Definition overrides_with_headers : Dict.t pyval :=
  [(Str "timeout", PInt 3); (Str "headers", PDict extra_headers)].

(** A member that is a parameter or a field. *)
Definition is_plain (c : content) : bool :=
  isinstance_any c [FieldContentT; ParamContentT].

(** The content type a composite with the members [l] reports. *)
Definition expected_enctype (l : list content) : string :=
  if existsb is_part l then MULTIPART_FORM_DATA
  else APPLICATION_X_WWW_FORM_URLENCODED.

(** The invariant of a [MultiContent]: the members are supported and the
    content type follows them. *)
Definition multi_inv (m : multi) : Prop :=
  all_supported (content_list m) = true /\
  multi_enctype m = expected_enctype (content_list m).

(** A fresh form, a form with a field, and a nested composite, which
    [add] does not let in. *)
Definition empty_form : multi :=
  mkMulti (Str "form") [] APPLICATION_X_WWW_FORM_URLENCODED.

Definition nested_form : content :=
  MultiContent (Str "inner") [] APPLICATION_X_WWW_FORM_URLENCODED.

(** A [set], which [json.dumps] does not serialize. *)
Definition a_set : pyval := PObj (mkObject 2 "set" Iterable None).

(** [file] passes the first check of [FileContent.__init__]. *)
Definition is_file (file : pyval) : bool :=
  is_str_or_bytes file || is_iobase file || has_iter file.

Definition slash : string := String Path.sep EmptyString.

(** The value is made of what JSON has: [None], booleans, numbers and
    strings, in lists, tuples and dictionaries with [str] keys. *)
Fixpoint json_typed (v : pyval) : bool :=
  match v with
  | PText (Bytes _) | PObj _ => false
  | PList l | PTuple l => forallb json_typed l
  | PDict d =>
      forallb
        (fun kv : text * pyval =>
           let (k, x) := kv in
           match k with Str _ => json_typed x | Bytes _ => false end) d
  | _ => true
  end.

(** ** Vocabulary of the further properties *)

Definition name_error : exn :=
  TypeError "name is expected as a str or bytes object".

Definition value_error : exn :=
  TypeError "value is expected as a byte-like object".

(** What [MultiContent._build] does with a parameter or a field:
    [_extract(content.build()[key])]. *)
Definition extract_built (c : content) (key : string) : result (text * pyval) :=
  b <- build c ;;
  d <- subscript b (Str key) ;;
  _extract d.

Definition extract_error (size : nat) : exn :=
  ValueError ("Only one-element dict can be extracted, "
              ++ string_of_nat size ++ " element(s) found.").

(** A value of [params] or [data]: a list, not empty, of [str] and
    [bytes]. *)
Definition text_values (l : list pyval) : bool :=
  match l with
  | [] => false
  | _ => forallb is_str_or_bytes l
  end.

(** A value of [files]: [(filename, payload, content type)] or
    [(None, text, content type)]. *)
Definition is_part_tuple (v : pyval) : bool :=
  match v with
  | PTuple [PText (Str _); _; PText (Str _)] => true
  | PTuple [PNone; PText (Str _); PText (Str _)] => true
  | _ => false
  end.

(** The three dictionaries are dictionaries (no key twice) and hold
    values of these shapes. *)
Definition well_shaped (p : parameters) : bool :=
  negb (has_dup (Dict.keys (params p)))
  && negb (has_dup (Dict.keys (data p)))
  && negb (has_dup (Dict.keys (files p)))
  && forallb (fun kv => text_values (snd kv)) (params p)
  && forallb (fun kv => text_values (snd kv)) (data p)
  && forallb (fun kv => is_part_tuple (snd kv)) (files p).

(** The prefix of the arguments that [add] appends: up to the first
    unsupported one. *)
Fixpoint supported_prefix (l : list content) : list content :=
  match l with
  | [] => []
  | c :: r =>
      if _exact_is_instance c supported then c :: supported_prefix r else []
  end.

Definition file_error : exn :=
  TypeError ("file is expected as a file-like object or "
             ++ "byte-like or iterable or str object").

Definition filename_error : exn :=
  ValueError ("Please provide filename explicitly if "
              ++ "file doesn't have name attribute").

(** The content type [FileContent.__init__] settles on for the file
    name [r]. *)
Definition resolved_enctype (guess_type : string -> option string)
  (file : pyval) (r : string) : string :=
  match guess_type r with
  | Some t => t
  | None => if is_text_like file then TEXT_PLAIN else APPLICATION_OCTET_STREAM
  end.


(** Three [add] calls for the examples; the second raises at the nested
    composite, after the file. *)
Definition mixed_calls : list (list content) :=
  [same_name_fields; [readme_file; nested_form]; same_name_fields].

(** * Properties *)

(** ** Keys and dictionaries *)

Lemma text_eqb_eq (a b : text) : text_eqb a b = true <-> a = b.
Proof.
  destruct a, b; simpl; rewrite ?String.eqb_eq;
    split; intro H; try congruence; try discriminate; inversion H; reflexivity.
Qed.

Lemma text_eqb_refl (a : text) : text_eqb a a = true.
Proof. apply text_eqb_eq; reflexivity. Qed.

Lemma text_eqb_sym (a b : text) : text_eqb a b = text_eqb b a.
Proof.
  destruct (text_eqb a b) eqn:E, (text_eqb b a) eqn:F; try reflexivity.
  - apply text_eqb_eq in E; subst; rewrite text_eqb_refl in F; discriminate.
  - apply text_eqb_eq in F; subst; rewrite text_eqb_refl in E; discriminate.
Qed.

Lemma text_eqb_neq (a b : text) : text_eqb a b = false <-> a <> b.
Proof.
  split; intros H.
  - intros ->; rewrite text_eqb_refl in H; discriminate.
  - destruct (text_eqb a b) eqn:E; [apply text_eqb_eq in E; contradiction | reflexivity].
Qed.

Module DictFacts.

Section Facts.
Context {V : Type}.
Implicit Types (d e : Dict.t V) (k : text) (v : V).

Lemma mem_keys k d : Dict.mem k d = existsb (text_eqb k) (Dict.keys d).
Proof.
  induction d as [|[k' v'] r IH]; simpl; [reflexivity | now rewrite IH].
Qed.

Lemma mem_get k d : Dict.mem k d = match Dict.get k d with Some _ => true | None => false end.
Proof.
  induction d as [|[k' v'] r IH]; simpl; [reflexivity|].
  destruct (text_eqb k k'); simpl; [reflexivity | exact IH].
Qed.

Lemma get_set k k' v d :
  Dict.get k (Dict.set k' v d) = if text_eqb k k' then Some v else Dict.get k d.
Proof.
  induction d as [|[k0 v0] r IH]; simpl.
  - reflexivity.
  - destruct (text_eqb k' k0) eqn:E; simpl.
    + apply text_eqb_eq in E; subst k0.
      destruct (text_eqb k k'); reflexivity.
    + rewrite IH. destruct (text_eqb k k0) eqn:F; [|reflexivity].
      apply text_eqb_eq in F; subst k0.
      rewrite text_eqb_sym, E; reflexivity.
Qed.

Lemma keys_set_new k v d :
  Dict.mem k d = false -> Dict.set k v d = (d ++ [(k, v)])%list.
Proof.
  induction d as [|[k0 v0] r IH]; simpl; intros H; [reflexivity|].
  apply orb_false_iff in H as [H1 H2]. rewrite H1, IH by exact H2. reflexivity.
Qed.

Lemma keys_set_old k v d :
  Dict.mem k d = true -> Dict.keys (Dict.set k v d) = Dict.keys d.
Proof.
  induction d as [|[k0 v0] r IH]; simpl; intros H; [discriminate|].
  destruct (text_eqb k k0) eqn:E; simpl; [reflexivity|].
  f_equal. apply IH. exact H.
Qed.

Lemma mem_remove k k' d :
  Dict.mem k (Dict.remove k' d) = negb (text_eqb k k') && Dict.mem k d.
Proof.
  induction d as [|[k0 v0] r IH]; simpl.
  - now rewrite andb_false_r.
  - destruct (text_eqb k' k0) eqn:E; simpl; rewrite IH.
    + apply text_eqb_eq in E; subst k0.
      destruct (text_eqb k k'); reflexivity.
    + destruct (text_eqb k k0) eqn:F; simpl.
      * apply text_eqb_eq in F; subst k0.
        rewrite text_eqb_sym, E; reflexivity.
      * reflexivity.
Qed.

Lemma get_update_absent k d e :
  Dict.mem k e = false -> Dict.get k (Dict.update d e) = Dict.get k d.
Proof.
  unfold Dict.update. revert d.
  induction e as [|[k0 v0] r IH]; simpl; intros d H; [reflexivity|].
  apply orb_false_iff in H as [H1 H2].
  rewrite IH by exact H2. rewrite get_set, H1. reflexivity.
Qed.

Lemma mem_update_absent k d e :
  Dict.mem k e = false -> Dict.mem k (Dict.update d e) = Dict.mem k d.
Proof.
  intros H. rewrite !mem_get, get_update_absent by exact H. reflexivity.
Qed.

(** Updating with a dictionary in which no key occurs twice: its
    entries win, the others stay. *)
Lemma get_update k d e :
  has_dup (Dict.keys e) = false ->
  Dict.get k (Dict.update d e) =
  match Dict.get k e with Some v => Some v | None => Dict.get k d end.
Proof.
  unfold Dict.update. revert d.
  induction e as [|[k0 v0] r IH]; simpl; intros d H; [reflexivity|].
  apply orb_false_iff in H as [H1 H2].
  rewrite IH by exact H2.
  destruct (text_eqb k k0) eqn:E.
  - apply text_eqb_eq in E; subst k0.
    rewrite <- mem_keys, mem_get in H1.
    destruct (Dict.get k r); [discriminate|].
    rewrite get_set, text_eqb_refl. reflexivity.
  - destruct (Dict.get k r); [reflexivity|].
    rewrite get_set, E. reflexivity.
Qed.

End Facts.

End DictFacts.

(** ** [json.dumps] *)



Module JsonFacts.

Lemma dumps_PList a l :
  jsondumps a (PList l) =
  (chunks <- dumps_list a l ;; Ok ("[" ++ String.concat ", " chunks ++ "]")).
Proof.
  unfold jsondumps; simpl.
  match goal with
  | |- bind (?F l) _ = _ => assert (E : forall l, F l = dumps_list a l)
  end.
  { clear l. induction l as [|x r IH]; [reflexivity|].
    simpl. unfold jsondumps. rewrite IH. reflexivity. }
  rewrite E. reflexivity.
Qed.

Lemma dumps_PTuple a l :
  jsondumps a (PTuple l) =
  (chunks <- dumps_list a l ;; Ok ("[" ++ String.concat ", " chunks ++ "]")).
Proof.
  unfold jsondumps; simpl.
  match goal with
  | |- bind (?F l) _ = _ => assert (E : forall l, F l = dumps_list a l)
  end.
  { clear l. induction l as [|x r IH]; [reflexivity|].
    simpl. unfold jsondumps. rewrite IH. reflexivity. }
  rewrite E. reflexivity.
Qed.

Lemma dumps_PDict a d :
  jsondumps a (PDict d) =
  (chunks <- dumps_items a d ;; Ok ("{" ++ String.concat ", " chunks ++ "}")).
Proof.
  unfold jsondumps; simpl.
  match goal with
  | |- bind (?F d) _ = _ => assert (E : forall d, F d = dumps_items a d)
  end.
  { clear d. induction d as [|[k x] r IH]; [reflexivity|].
    simpl. unfold jsondumps. rewrite IH. reflexivity. }
  rewrite E. reflexivity.
Qed.

Lemma dumps_list_lenient l :
  Forall lenient l ->
  forall c, dumps_list false l = Ok c -> dumps_list true l = Ok c.
Proof.
  induction 1 as [|x r Hx _ IH]; simpl; intros c Hc; [exact Hc|].
  destruct (jsondumps false x) as [s|] eqn:E; [|discriminate].
  rewrite (Hx s E). simpl in *.
  destruct (dumps_list false r) as [rest|] eqn:F; [|discriminate].
  rewrite (IH rest eq_refl). exact Hc.
Qed.

Lemma dumps_items_lenient d :
  Forall (fun kv => lenient (snd kv)) d ->
  forall c, dumps_items false d = Ok c -> dumps_items true d = Ok c.
Proof.
  induction 1 as [|[k x] r Hx _ IH]; simpl; intros c Hc; [exact Hc|].
  destruct (Json.encode_key k) as [ks|]; [|discriminate]. simpl in *.
  destruct (jsondumps false x) as [s|] eqn:E; [|discriminate].
  rewrite (Hx s E). simpl in *.
  destruct (dumps_items false r) as [rest|] eqn:F; [|discriminate].
  rewrite (IH rest eq_refl). exact Hc.
Qed.

(** A value that serializes with [allow_nan=False] serializes to the
    same string with the default [allow_nan=True]. *)
Lemma dumps_lenient v : lenient v.
Proof.
  induction v using pyval_nested_ind; unfold lenient; intros s.
  - trivial.
  - trivial.
  - trivial.
  - destruct f; simpl; trivial; discriminate.
  - trivial.
  - rewrite !dumps_PList.
    destruct (dumps_list false l) as [c|] eqn:E; [|discriminate].
    rewrite (dumps_list_lenient l H c E). trivial.
  - rewrite !dumps_PTuple.
    destruct (dumps_list false l) as [c|] eqn:E; [|discriminate].
    rewrite (dumps_list_lenient l H c E). trivial.
  - rewrite !dumps_PDict.
    destruct (dumps_items false d) as [c|] eqn:E; [|discriminate].
    rewrite (dumps_items_lenient d H c E). trivial.
  - trivial.
Qed.

Lemma dumps_list_fails a l :
  Forall (fails_well a) l ->
  forall e, dumps_list a l = Raise e -> is_value_error e || is_type_error e = true.
Proof.
  induction 1 as [|x r Hx _ IH]; simpl; intros e He; [discriminate|].
  destruct (jsondumps a x) as [s|e'] eqn:E; simpl in He.
  - destruct (dumps_list a r) as [rest|e''] eqn:F; simpl in He; [discriminate|].
    inversion He; subst. apply IH; reflexivity.
  - inversion He; subst. apply Hx; exact E.
Qed.

Lemma dumps_items_fails a d :
  Forall (fun kv => fails_well a (snd kv)) d ->
  forall e, dumps_items a d = Raise e -> is_value_error e || is_type_error e = true.
Proof.
  induction 1 as [|[k x] r Hx _ IH]; simpl; intros e He; [discriminate|].
  destruct k as [s|b]; simpl in He.
  - destruct (jsondumps a x) as [sx|e'] eqn:E; simpl in He.
    + destruct (dumps_items a r) as [rest|e''] eqn:F; simpl in He; [discriminate|].
      inversion He; subst. apply IH; reflexivity.
    + inversion He; subst. apply Hx; exact E.
  - inversion He; subst. reflexivity.
Qed.

(** [json.dumps] raises a [ValueError] or a [TypeError], nothing else. *)
Lemma dumps_fails_well a v : fails_well a v.
Proof.
  induction v using pyval_nested_ind; unfold fails_well; intros e.
  - discriminate.
  - destruct b; discriminate.
  - discriminate.
  - destruct f, a; simpl; try discriminate; intros He; inversion He; reflexivity.
  - destruct t; simpl; [discriminate|]. intros He; inversion He; reflexivity.
  - rewrite dumps_PList.
    destruct (dumps_list a l) as [c|e'] eqn:E; simpl; [discriminate|].
    intros He; inversion He; subst. eapply dumps_list_fails; eassumption.
  - rewrite dumps_PTuple.
    destruct (dumps_list a l) as [c|e'] eqn:E; simpl; [discriminate|].
    intros He; inversion He; subst. eapply dumps_list_fails; eassumption.
  - rewrite dumps_PDict.
    destruct (dumps_items a d) as [c|e'] eqn:E; simpl; [discriminate|].
    intros He; inversion He; subst. eapply dumps_items_fails; eassumption.
  - simpl. intros He; inversion He; reflexivity.
Qed.

End JsonFacts.

(** ** Keys that occur twice *)

Lemma occurrences_app k l r :
  occurrences k (l ++ r) = occurrences k l + occurrences k r.
Proof. unfold occurrences. rewrite filter_app, length_app. reflexivity. Qed.

Lemma occurrences_existsb k l :
  existsb (text_eqb k) l = true -> 1 <= occurrences k l.
Proof.
  unfold occurrences. induction l as [|x r IH]; simpl; [discriminate|].
  destruct (text_eqb k x); simpl; intros H; [lia | auto].
Qed.

Lemma existsb_occurrences k l :
  1 <= occurrences k l -> existsb (text_eqb k) l = true.
Proof.
  unfold occurrences. induction l as [|x r IH]; simpl; [lia|].
  destruct (text_eqb k x); simpl; auto.
Qed.

Lemma has_dup_occurrences k l : 2 <= occurrences k l -> has_dup l = true.
Proof.
  induction l as [|x r IH]; [unfold occurrences; simpl; lia|].
  change (x :: r) with ([x] ++ r)%list at 1. rewrite occurrences_app.
  unfold occurrences at 1. simpl.
  destruct (text_eqb k x) eqn:E; simpl; intros H.
  - apply text_eqb_eq in E; subst x.
    rewrite existsb_occurrences by lia. reflexivity.
  - rewrite IH by lia. apply orb_true_r.
Qed.

Lemma has_dup_snoc x l :
  has_dup (l ++ [x]) = existsb (text_eqb x) l || has_dup l.
Proof.
  induction l as [|y r IH]; simpl; [reflexivity|].
  rewrite IH, existsb_app. simpl.
  rewrite (text_eqb_sym x y).
  destruct (existsb (text_eqb y) r), (text_eqb y x), (existsb (text_eqb x) r);
    reflexivity.
Qed.

Lemma first_dup_from_some seen l k :
  first_dup_from seen l = Some k -> 2 <= occurrences k (seen ++ l).
Proof.
  revert seen. induction l as [|x r IH]; simpl; intros seen H; [discriminate|].
  destruct (existsb (text_eqb x) seen) eqn:E.
  - inversion H; subst x. rewrite occurrences_app.
    apply occurrences_existsb in E.
    unfold occurrences at 2. simpl. rewrite text_eqb_refl. simpl. lia.
  - apply IH in H. rewrite <- app_assoc in H. exact H.
Qed.

Lemma first_dup_from_none seen l :
  first_dup_from seen l = None -> has_dup (seen ++ l) = has_dup seen.
Proof.
  revert seen. induction l as [|x r IH]; simpl; intros seen H.
  - rewrite app_nil_r. reflexivity.
  - destruct (existsb (text_eqb x) seen) eqn:E; [discriminate|].
    apply IH in H. rewrite <- app_assoc in H. simpl in H.
    rewrite H, has_dup_snoc, E. reflexivity.
Qed.

Lemma has_dup_NoDup l : has_dup l = false <-> NoDup l.
Proof.
  induction l as [|x r IH]; simpl.
  - split; [constructor | reflexivity].
  - rewrite orb_false_iff, IH. split.
    + intros [H1 H2]. constructor; [|exact H2].
      intros Hin. assert (existsb (text_eqb x) r = true); [|congruence].
      apply existsb_exists. exists x. split; [exact Hin | apply text_eqb_refl].
    + intros H. inversion H as [|? ? Hn Hr]; subst. split; [|exact Hr].
      destruct (existsb (text_eqb x) r) eqn:E; [|reflexivity].
      apply existsb_exists in E as [y [Hy Exy]].
      apply text_eqb_eq in Exy; subst y. contradiction.
Qed.

(** ** The members of a [MultiContent] *)

Lemma supported_cases c :
  _exact_is_instance c supported = true ->
  (exists n v, c = ParamContent n v) \/
  (exists n v, c = FieldContent n v) \/
  (exists n f fn e, c = FileContent n f fn e) \/
  (exists n j, c = JSONContent n j).
Proof.
  destruct c; intros H.
  - left; eauto.
  - right; left; eauto.
  - right; right; left; eauto.
  - right; right; right; eauto.
  - discriminate.
  - unfold _exact_is_instance in H. simpl in H.
    destruct (negb _) in H; discriminate.
Qed.

Lemma unsupported_multi n l e :
  _exact_is_instance (MultiContent n l e) supported = false.
Proof. reflexivity. Qed.

Lemma unsupported_subclass n b :
  _exact_is_instance (Subclass n b) supported = false.
Proof.
  unfold _exact_is_instance. simpl. destruct (negb _); reflexivity.
Qed.

Lemma build_multi n l e :
  build (MultiContent n l e) =
  (p <- build_loop l (mkParameters [] [] []) ;; Ok (to_pyval p)).
Proof.
  simpl.
  match goal with
  | |- bind (?F l ?p0) _ = _ => assert (E : forall l p, F l p = build_loop l p)
  end.
  { clear l. induction l as [|c r IH]; intros p; [reflexivity|].
    simpl. destruct (collect c (build c) p); simpl; [apply IH | reflexivity]. }
  rewrite E. reflexivity.
Qed.

Lemma collect_param n v p :
  collect (ParamContent n v) (build (ParamContent n v)) p =
  Ok (mkParameters (_create_or_append (params p) n (PText v)) (data p) (files p)).
Proof. unfold collect. simpl. rewrite text_eqb_refl. reflexivity. Qed.

Lemma collect_field n v p :
  collect (FieldContent n v) (build (FieldContent n v)) p =
  Ok (mkParameters (params p) (_create_or_append (data p) n (PText v)) (files p)).
Proof. unfold collect. simpl. rewrite text_eqb_refl. reflexivity. Qed.

Lemma collect_file n f fn e p :
  collect (FileContent n f fn e) (build (FileContent n f fn e)) p =
  (fs <- _create_or_raise (files p) n (PTuple [PStr fn; f; PStr e]) ;;
   Ok (mkParameters (params p) (data p) fs)).
Proof.
  unfold collect. simpl.
  destruct (_create_or_raise _ _ _); reflexivity.
Qed.

Lemma collect_json n j p :
  collect (JSONContent n j) (build (JSONContent n j)) p =
  (s <- jsondumps true j ;;
   fs <- _create_or_raise (files p) n
           (PTuple [PNone; PStr s; PStr APPLICATION_JSON]) ;;
   Ok (mkParameters (params p) (data p) fs)).
Proof. unfold collect. simpl. destruct p; reflexivity. Qed.

Lemma get_create_or_append n d k v :
  Dict.get n (_create_or_append d k v) =
  if text_eqb n k
  then Some (match Dict.get k d with Some l => l ++ [v] | None => [v] end)%list
  else Dict.get n d.
Proof.
  unfold _create_or_append. rewrite DictFacts.mem_get.
  destruct (Dict.get k d) as [l|] eqn:E; simpl.
  - apply DictFacts.get_set.
  - unfold Dict.update; simpl. apply DictFacts.get_set.
Qed.

Lemma create_or_raise_new d k v :
  Dict.mem k d = false -> _create_or_raise d k v = Ok (d ++ [(k, v)])%list.
Proof.
  intros H. unfold _create_or_raise. rewrite H.
  unfold Dict.update; simpl. rewrite DictFacts.keys_set_new by exact H.
  reflexivity.
Qed.

Lemma create_or_raise_old d k v :
  Dict.mem k d = true -> _create_or_raise d k v = Raise (DuplicateValue k).
Proof. intros H. unfold _create_or_raise. rewrite H. reflexivity. Qed.

Lemma append_values_cons (old : option (list pyval)) v vs :
  append_values (Some (match old with Some l => l ++ [v] | None => [v] end)%list) vs
  = append_values old (v :: vs).
Proof.
  destruct old as [l|]; simpl; [|reflexivity].
  rewrite <- app_assoc. reflexivity.
Qed.

(** The loop of [_build] from any [parameters]: it stops at the first
    part whose name is taken, and otherwise extends the three
    dictionaries in the order of the members. *)
Lemma build_loop_spec l :
  all_supported l = true ->
  forallb init_ok l = true ->
  forall p,
    match first_dup_from (Dict.keys (files p)) (part_names l) with
    | Some k => build_loop l p = Raise (DuplicateValue k)
    | None =>
        exists p',
          build_loop l p = Ok p' /\
          Dict.keys (files p') = (Dict.keys (files p) ++ part_names l)%list /\
          (forall n, Dict.get n (params p') =
                     append_values (Dict.get n (params p))
                                   (values_named ParamContentT n l)) /\
          (forall n, Dict.get n (data p') =
                     append_values (Dict.get n (data p))
                                   (values_named FieldContentT n l))
    end.
Proof.
  induction l as [|c r IH]; intros Hs Hi p.
  - simpl. exists p. rewrite app_nil_r.
    repeat split; intros n; destruct (Dict.get n _); simpl;
      rewrite ?app_nil_r; reflexivity.
  - simpl in Hs, Hi.
    apply andb_true_iff in Hs as [Hc Hs], Hi as [Hci Hi].
    specialize (IH Hs Hi).
    destruct (supported_cases c Hc)
      as [(n & v & ->) | [(n & v & ->) | [(n & f & fn & e & ->) | (n & j & ->)]]].
    + cbn [build_loop]. rewrite collect_param. cbn [bind].
      specialize (IH (mkParameters (_create_or_append (params p) n (PText v))
                                   (data p) (files p))).
      cbn [files params data] in IH.
      change (part_names (ParamContent n v :: r)) with (part_names r).
      destruct (first_dup_from _ _); [exact IH|].
      destruct IH as (p' & E & K & HP & HD). exists p'.
      repeat split; try assumption.
      intros m. rewrite HP, get_create_or_append. cbn [values_named flat_map].
      cbn [type_of pyclass_eqb andb app].
      destruct (text_eqb m n) eqn:F; [|reflexivity].
      apply text_eqb_eq in F; subst m. apply append_values_cons.
    + cbn [build_loop]. rewrite collect_field. cbn [bind].
      specialize (IH (mkParameters (params p)
                                   (_create_or_append (data p) n (PText v))
                                   (files p))).
      cbn [files params data] in IH.
      change (part_names (FieldContent n v :: r)) with (part_names r).
      destruct (first_dup_from _ _); [exact IH|].
      destruct IH as (p' & E & K & HP & HD). exists p'.
      repeat split; try assumption.
      intros m. rewrite HD, get_create_or_append. cbn [values_named flat_map].
      cbn [type_of pyclass_eqb andb app].
      destruct (text_eqb m n) eqn:F; [|reflexivity].
      apply text_eqb_eq in F; subst m. apply append_values_cons.
    + cbn [build_loop]. rewrite collect_file.
      change (part_names (FileContent n f fn e :: r)) with (n :: part_names r).
      cbn [first_dup_from]. rewrite <- DictFacts.mem_keys.
      destruct (Dict.mem n (files p)) eqn:M.
      * rewrite create_or_raise_old by exact M. reflexivity.
      * rewrite create_or_raise_new by exact M. cbn [bind].
        specialize (IH (mkParameters (params p) (data p)
                          (files p ++ [(n, PTuple [PStr fn; f; PStr e])])%list)).
        cbn [files params data] in IH.
        unfold Dict.keys in IH at 1. rewrite map_app in IH. cbn [map fst] in IH.
        fold (Dict.keys (files p)) in IH.
        destruct (first_dup_from _ _); [exact IH|].
        destruct IH as (p' & E & K & HP & HD). exists p'.
        repeat split; try assumption.
        rewrite K. unfold Dict.keys. rewrite map_app, <- app_assoc. reflexivity.
    + cbn [build_loop]. rewrite collect_json.
      cbn [init_ok] in Hci.
      destruct (jsondumps false j) as [s|] eqn:J; [|discriminate].
      rewrite (JsonFacts.dumps_lenient j s J). cbn [bind].
      change (part_names (JSONContent n j :: r)) with (n :: part_names r).
      cbn [first_dup_from]. rewrite <- DictFacts.mem_keys.
      destruct (Dict.mem n (files p)) eqn:M.
      * rewrite create_or_raise_old by exact M. reflexivity.
      * rewrite create_or_raise_new by exact M. cbn [bind].
        specialize (IH (mkParameters (params p) (data p)
                          (files p ++ [(n, PTuple [PNone; PStr s; PStr APPLICATION_JSON])])%list)).
        cbn [files params data] in IH.
        unfold Dict.keys in IH at 1. rewrite map_app in IH. cbn [map fst] in IH.
        fold (Dict.keys (files p)) in IH.
        destruct (first_dup_from _ _); [exact IH|].
        destruct IH as (p' & E & K & HP & HD). exists p'.
        repeat split; try assumption.
        rewrite K. unfold Dict.keys. rewrite map_app, <- app_assoc. reflexivity.
Qed.

(** ** The end-to-end scenario *)

(** C1: [Parameter("p","1")], [Field("f","2")], [File("doc", stream)] for
    a text stream named [report.txt] and [JSONValue("meta", {"a": 1})],
    added in that order to [Composite("form")], build to
    [params = {"p": ["1"]}], [data = {"f": ["2"]}] and
    [files = {"doc": ("report.txt", stream, "text/plain"),
              "meta": (None, '{"a": 1}', "application/json")}],
    where [guess_type] is the standard library's, which knows [.txt]. *)
Theorem end_to_end_bundle (guess_type : string -> option string) (o : pyobject) :
  guess_type "report.txt" = Some "text/plain" ->
  obj_class o = TextIO ->
  obj_name o = Some (NameValue (Some "report.txt")) ->
  end_to_end guess_type (PObj o) =
  Ok (PDict
        [(Str "params", PDict [(Str "p", PList [PStr "1"])]);
         (Str "data", PDict [(Str "f", PList [PStr "2"])]);
         (Str "files",
          PDict
            [(Str "doc", PTuple [PStr "report.txt"; PObj o; PStr "text/plain"]);
             (Str "meta",
              PTuple [PNone;
                      PStr ("{" ++ Json.dq ++ "a" ++ Json.dq ++ ": 1}");
                      PStr "application/json"])])]).
Proof.
  intros G C N.
  unfold end_to_end, FileContent_init, resolve_filename, name_attribute,
    is_iobase, has_iter, is_text_like.
  cbn [ParamContent_init FieldContent_init check_name bind PStr
       is_str_or_bytes orb negb].
  rewrite C, N. cbn [orb negb]. rewrite G.
  reflexivity.
Qed.

Lemma end_to_end_bundle_witness :
  end_to_end guess_txt (report_stream 7) =
  Ok (PDict
        [(Str "params", PDict [(Str "p", PList [PStr "1"])]);
         (Str "data", PDict [(Str "f", PList [PStr "2"])]);
         (Str "files",
          PDict
            [(Str "doc",
              PTuple [PStr "report.txt"; report_stream 7; PStr "text/plain"]);
             (Str "meta",
              PTuple [PNone;
                      PStr ("{" ++ Json.dq ++ "a" ++ Json.dq ++ ": 1}");
                      PStr "application/json"])])]).
Proof.
  apply (end_to_end_bundle guess_txt
           (mkObject 7 "TextIOWrapper" TextIO
                     (Some (NameValue (Some "report.txt")))));
    reflexivity.
Defined.

(** ** Members that share a name *)

(** C2: in the [build] of a composite whose members are supported and
    went through their constructors, parameters and fields that share a
    name never raise: the values of a name are listed under it in
    [params] (in [data]) in the order of the members.  Two members among
    the files and JSON values that share a name make [build] raise
    [DuplicateValue]; without such a pair [build] returns. *)
Theorem composite_same_names (nm : text) (l : list content) (e : string) :
  all_supported l = true ->
  forallb init_ok l = true ->
  if has_dup (part_names l)
  then exists k,
         2 <= occurrences k (part_names l) /\
         build (MultiContent nm l e) = Raise (DuplicateValue k)
  else exists p,
         build (MultiContent nm l e) = Ok (to_pyval p) /\
         (forall n, Dict.get n (params p) =
                    some_if_any (values_named ParamContentT n l)) /\
         (forall n, Dict.get n (data p) =
                    some_if_any (values_named FieldContentT n l)) /\
         Dict.keys (files p) = part_names l.
Proof.
  intros Hs Hi. rewrite build_multi.
  pose proof (build_loop_spec l Hs Hi (mkParameters [] [] [])) as H.
  cbn [files params data Dict.keys map Dict.get app] in H.
  destruct (first_dup_from [] (part_names l)) as [k|] eqn:F.
  - apply first_dup_from_some in F. cbn [app] in F.
    rewrite (has_dup_occurrences k _ F).
    exists k. split; [exact F|]. rewrite H. reflexivity.
  - apply first_dup_from_none in F. cbn [app has_dup] in F. rewrite F.
    destruct H as (p & E & K & HP & HD). exists p.
    rewrite E. repeat split; assumption.
Qed.

Lemma composite_same_names_witness :
  (exists p,
     build (MultiContent (Str "form") same_name_fields
                         APPLICATION_X_WWW_FORM_URLENCODED) = Ok (to_pyval p) /\
     (forall n, Dict.get n (params p) =
                some_if_any (values_named ParamContentT n same_name_fields)) /\
     (forall n, Dict.get n (data p) =
                some_if_any (values_named FieldContentT n same_name_fields)) /\
     Dict.keys (files p) = []) /\
  (exists k,
     2 <= occurrences k [Str "file"; Str "file"] /\
     build (MultiContent (Str "form") same_name_parts MULTIPART_FORM_DATA)
     = Raise (DuplicateValue k)).
Proof.
  split.
  - exact (composite_same_names (Str "form") same_name_fields
             APPLICATION_X_WWW_FORM_URLENCODED eq_refl eq_refl).
  - exact (composite_same_names (Str "form") same_name_parts
             MULTIPART_FORM_DATA eq_refl eq_refl).
Defined.

Example same_name_fields_build :
  build (MultiContent (Str "form") same_name_fields
                      APPLICATION_X_WWW_FORM_URLENCODED)
  = Ok (PDict
          [(Str "params", PDict [(Str "field2", PList [PStr "suboiz"])]);
           (Str "data",
            PDict [(Str "field2",
                    PList [PStr "narutobaco"; PStr "sasuketamin"])]);
           (Str "files", PDict [])]).
Proof. reflexivity. Qed.

Example same_name_parts_build :
  build (MultiContent (Str "form") same_name_parts MULTIPART_FORM_DATA)
  = Raise (DuplicateValue (Str "file")).
Proof. reflexivity. Qed.

(** ** [App.crequest] *)

Lemma build_no_headers c p :
  isinstance c FileContentT = false ->
  build c = Ok (PDict p) ->
  Dict.mem (Str "headers") p = false.
Proof.
  induction c as [n v|n v|n f fn e|n j|n l e|cn b IH]; intros I B.
  - inversion B; reflexivity.
  - inversion B; reflexivity.
  - discriminate.
  - inversion B; reflexivity.
  - rewrite build_multi in B.
    destruct (build_loop l _); simpl in B; [|discriminate].
    inversion B; reflexivity.
  - apply IH; [|exact B].
    unfold isinstance in *. simpl in I. exact I.
Qed.

Section Facade.

Variable response : Type.
Variable request : pyval -> pyval -> Dict.t pyval -> result response.

Lemma crequest_valid m u c kwargs p :
  valid_overrides kwargs = true ->
  build c = Ok (PDict p) ->
  crequest response request m u c kwargs =
  match merge_headers p (Dict.get (Str "headers") kwargs) with
  | Raise e => ([Built c], Raise e)
  | Ok p1 =>
      let p' := Dict.update p1 (Dict.remove (Str "headers") kwargs) in
      ([Built c; Requested m u p'], request m u p')
  end.
Proof.
  intros V B. unfold crequest, valid_overrides in *.
  apply negb_true_iff in V. rewrite V, B. reflexivity.
Qed.

Lemma headers_after_update (p kwargs : Dict.t pyval) :
  Dict.get (Str "headers") (Dict.update p (Dict.remove (Str "headers") kwargs))
  = Dict.get (Str "headers") p.
Proof.
  apply DictFacts.get_update_absent.
  rewrite DictFacts.mem_remove, text_eqb_refl. reflexivity.
Qed.

(** C4: when the overrides hold one of the keys [data], [json], [files]
    or [params], [crequest] raises the [ValueError] that lists these
    keys; nothing has happened before: the content is not built and the
    engine is not called. *)
Theorem crequest_invalid_override (m u : pyval) (c : content)
  (kwargs : Dict.t pyval) (k : text) :
  In k invalid_params ->
  Dict.mem k kwargs = true ->
  crequest response request m u c kwargs =
  ([], Raise (ValueError invalid_params_message)).
Proof.
  intros Hin Hk. unfold crequest.
  assert (E : existsb (fun name => Dict.mem name kwargs) invalid_params = true).
  { apply existsb_exists. exists k. split; assumption. }
  rewrite E. reflexivity.
Qed.

(** C3: for a content whose bundle has a [headers] entry, and the
    caller's [headers] a dictionary (no key twice) or absent, the
    forwarded [headers] are the content's updated with the caller's: a
    key of the caller's headers has the caller's value, any other key
    the content's; without caller headers they are the content's as
    built. *)
Theorem crequest_headers (m u : pyval) (c : content) (kwargs p own : Dict.t pyval)
  (h : option (Dict.t pyval)) :
  valid_overrides kwargs = true ->
  build c = Ok (PDict p) ->
  Dict.get (Str "headers") p = Some (PDict own) ->
  Dict.get (Str "headers") kwargs = option_map PDict h ->
  has_dup (override_keys h) = false ->
  exists p' merged,
    crequest response request m u c kwargs =
      ([Built c; Requested m u p'], request m u p') /\
    Dict.get (Str "headers") p' = Some (PDict merged) /\
    (forall k, Dict.get k merged =
               match override_lookup h k with
               | Some v => Some v
               | None => Dict.get k own
               end) /\
    (h = None -> merged = own).
Proof.
  intros V B O K N.
  rewrite (crequest_valid m u c kwargs p V B), K.
  destruct h as [[|kv d]|]; cbn [option_map merge_headers truthy andb].
  - eexists; exists own. split; [reflexivity|].
    rewrite headers_after_update.
    split; [exact O|]. split; [reflexivity | discriminate].
  - rewrite DictFacts.mem_get, O. cbn [update_items bind].
    eexists; exists (Dict.update own (kv :: d)). split; [reflexivity|].
    rewrite headers_after_update, DictFacts.get_set, text_eqb_refl.
    split; [reflexivity|]. split; [|discriminate].
    intros k. apply DictFacts.get_update. exact N.
  - eexists; exists own. split; [reflexivity|].
    rewrite headers_after_update.
    split; [exact O|]. split; reflexivity.
Qed.

(** C10: for a content whose bundle has no [headers] entry, headers the
    caller passes are dropped: the call goes to the engine with the
    bundle updated by the other overrides, in which no [headers] key
    occurs, and [crequest] raises nothing of its own. *)
Theorem crequest_drops_headers (m u : pyval) (c : content)
  (kwargs p : Dict.t pyval) (h : pyval) :
  valid_overrides kwargs = true ->
  build c = Ok (PDict p) ->
  Dict.mem (Str "headers") p = false ->
  Dict.get (Str "headers") kwargs = Some h ->
  crequest response request m u c kwargs =
    ([Built c;
      Requested m u (Dict.update p (Dict.remove (Str "headers") kwargs))],
     request m u (Dict.update p (Dict.remove (Str "headers") kwargs))) /\
  Dict.mem (Str "headers")
           (Dict.update p (Dict.remove (Str "headers") kwargs)) = false.
Proof.
  intros V B M K.
  rewrite (crequest_valid m u c kwargs p V B), K.
  cbn [merge_headers]. rewrite M, andb_false_r. split; [reflexivity|].
  rewrite DictFacts.mem_get, headers_after_update, <- DictFacts.mem_get.
  exact M.
Qed.

End Facade.

Lemma crequest_invalid_override_witness :
  crequest nat always_200 (PStr "POST") (PStr "http://localhost:8000/")
           (MultiContent (Str "form") same_name_parts MULTIPART_FORM_DATA)
           [(Str "timeout", PInt 3); (Str "data", PDict [])]
  = ([], Raise (ValueError invalid_params_message)).
Proof.
  apply (crequest_invalid_override nat always_200 _ _ _ _ (Str "data")).
  - simpl; auto.
  - reflexivity.
Defined.

Lemma crequest_headers_witness :
  exists p' merged,
    crequest nat always_200 (PStr "POST") (PStr "http://localhost:8000/")
             readme_file overrides_with_headers
    = ([Built readme_file;
        Requested (PStr "POST") (PStr "http://localhost:8000/") p'],
       Ok 200) /\
    Dict.get (Str "headers") p' = Some (PDict merged) /\
    (forall k, Dict.get k merged =
               match Dict.get k extra_headers with
               | Some v => Some v
               | None =>
                   Dict.get k
                     [(Str CONTENT_TYPE, PStr TEXT_PLAIN);
                      (Str CONTENT_DISPOSITION,
                       PStr "attachment; filename=README.md")]
               end) /\
    (Some extra_headers = None ->
     merged = [(Str CONTENT_TYPE, PStr TEXT_PLAIN);
               (Str CONTENT_DISPOSITION,
                PStr "attachment; filename=README.md")]).
Proof.
  apply (crequest_headers nat always_200 (PStr "POST")
           (PStr "http://localhost:8000/") readme_file overrides_with_headers
           [(Str "data", report_stream 0);
            (Str "headers",
             PDict [(Str CONTENT_TYPE, PStr TEXT_PLAIN);
                    (Str CONTENT_DISPOSITION,
                     PStr "attachment; filename=README.md")])]
           [(Str CONTENT_TYPE, PStr TEXT_PLAIN);
            (Str CONTENT_DISPOSITION, PStr "attachment; filename=README.md")]
           (Some extra_headers)); reflexivity.
Defined.

Example crequest_headers_merged :
  fst (crequest nat always_200 (PStr "POST") (PStr "http://localhost:8000/")
                readme_file overrides_with_headers)
  = [Built readme_file;
     Requested (PStr "POST") (PStr "http://localhost:8000/")
       [(Str "data", report_stream 0);
        (Str "headers",
         PDict [(Str CONTENT_TYPE, PStr "text/markdown");
                (Str CONTENT_DISPOSITION, PStr "attachment; filename=README.md");
                (Str "X-Extra", PStr "1")]);
        (Str "timeout", PInt 3)]].
Proof. reflexivity. Qed.

Lemma crequest_drops_headers_witness :
  crequest nat always_200 (PStr "GET") (PStr "http://localhost:8000/")
           (ParamContent (Str "param1") (Str "suboiz")) overrides_with_headers
  = ([Built (ParamContent (Str "param1") (Str "suboiz"));
      Requested (PStr "GET") (PStr "http://localhost:8000/")
        [(Str "params", PDict [(Str "param1", PStr "suboiz")]);
         (Str "timeout", PInt 3)]],
     Ok 200) /\
  Dict.mem (Str "headers")
    [(Str "params", PDict [(Str "param1", PStr "suboiz")]);
     (Str "timeout", PInt 3)] = false.
Proof.
  apply (crequest_drops_headers nat always_200 (PStr "GET")
           (PStr "http://localhost:8000/")
           (ParamContent (Str "param1") (Str "suboiz")) overrides_with_headers
           [(Str "params", PDict [(Str "param1", PStr "suboiz")])]
           (PDict extra_headers)); reflexivity.
Defined.

(** ** [MultiContent.add] *)

Lemma supported_plain_or_part c :
  _exact_is_instance c supported = true -> is_plain c = negb (is_part c).
Proof.
  intros H.
  destruct (supported_cases c H)
    as [(n & v & ->) | [(n & v & ->) | [(n & f & fn & e & ->) | (n & j & ->)]]];
    reflexivity.
Qed.

Lemma add_supported l self :
  all_supported l = true ->
  add l self =
  (mkMulti (multi_name self) (content_list self ++ l)
           (if existsb is_part l then MULTIPART_FORM_DATA else multi_enctype self),
   Ok tt).
Proof.
  revert self. induction l as [|c r IH]; intros self H.
  - simpl. rewrite app_nil_r. destruct self; reflexivity.
  - simpl in H. apply andb_true_iff in H as [Hc Hr].
    cbn [add]. rewrite Hc. cbn [negb].
    fold (is_plain c). rewrite (supported_plain_or_part c Hc), negb_involutive.
    rewrite IH by exact Hr. cbn [existsb].
    destruct (is_part c); cbn [multi_name content_list multi_enctype orb];
      rewrite <- app_assoc; [|reflexivity].
    destruct (existsb is_part r); reflexivity.
Qed.

Lemma add_app l r self :
  add (l ++ r) self = seq (add l) (add r) self.
Proof.
  unfold seq. revert self. induction l as [|c l IH]; intros self.
  - reflexivity.
  - cbn [app add]. destruct (negb (_exact_is_instance c supported)).
    + reflexivity.
    + apply IH.
Qed.

Lemma add_unsupported c r self :
  _exact_is_instance c supported = false ->
  add (c :: r) self = (self, Raise (unsupported_content c)).
Proof. intros H. cbn [add]. rewrite H. reflexivity. Qed.

Lemma multi_inv_add l self : multi_inv self -> multi_inv (fst (add l self)).
Proof.
  revert self. induction l as [|c r IH]; intros self [Hs He]; [split; assumption|].
  cbn [add]. destruct (_exact_is_instance c supported) eqn:Hc; cbn [negb].
  - apply IH. fold (is_plain c).
    rewrite (supported_plain_or_part c Hc), negb_involutive.
    unfold multi_inv, all_supported, expected_enctype in *.
    split.
    + cbn [content_list]. rewrite forallb_app. fold (all_supported (content_list self)).
      destruct (is_part c); cbn [content_list]; rewrite Hs; simpl; rewrite Hc;
        reflexivity.
    + destruct (is_part c) eqn:Pc; cbn [content_list multi_enctype];
        rewrite existsb_app; cbn [existsb]; rewrite Pc.
      * rewrite orb_true_r. reflexivity.
      * rewrite !orb_false_r. exact He.
  - split; assumption.
Qed.

Lemma multi_inv_add_calls calls self :
  multi_inv self -> multi_inv (add_calls calls self).
Proof.
  unfold add_calls. revert self.
  induction calls as [|l r IH]; intros self H; [exact H|].
  simpl. apply IH. apply multi_inv_add. exact H.
Qed.

Lemma is_part_not_plain l :
  all_supported l = true -> existsb is_part l = negb (forallb is_plain l).
Proof.
  induction l as [|c r IH]; intros H; [reflexivity|].
  simpl in H. apply andb_true_iff in H as [Hc Hr].
  simpl. rewrite (IH Hr), (supported_plain_or_part c Hc).
  destruct (is_part c), (forallb is_plain r); reflexivity.
Qed.

Lemma content_list_add l self :
  content_list (fst (add l self)) = (content_list self ++ supported_prefix l)%list.
Proof.
  revert self. induction l as [|c r IH]; intros self.
  - cbn. rewrite app_nil_r. reflexivity.
  - cbn [add supported_prefix].
    destruct (_exact_is_instance c supported); cbn [negb].
    + rewrite IH. destruct (negb _); cbn [content_list];
        rewrite <- app_assoc; reflexivity.
    + cbn [fst]. rewrite app_nil_r. reflexivity.
Qed.

Lemma content_list_add_calls calls self :
  content_list (add_calls calls self)
  = (content_list self ++ flat_map supported_prefix calls)%list.
Proof.
  unfold add_calls. revert self.
  induction calls as [|l r IH]; intros self.
  - cbn. rewrite app_nil_r. reflexivity.
  - cbn [fold_left flat_map]. rewrite IH, content_list_add, <- app_assoc.
    reflexivity.
Qed.

Lemma add_calls_snoc calls l self :
  add_calls (calls ++ [l]) self = fst (add l (add_calls calls self)).
Proof. unfold add_calls. rewrite fold_left_app. reflexivity. Qed.

(** C5: after any run of [add] calls on a fresh composite, also calls
    that raise, the members are the arguments of the calls in order,
    each call up to its first unsupported argument; they are instances
    of the four supported classes, and the content type reported is
    [application/x-www-form-urlencoded] when every member is a parameter
    or a field, the empty composite included, and [multipart/form-data]
    when a file or a JSON value is among them; the two differ.  One more
    [add] of a file or a JSON value makes the type
    [multipart/form-data], whatever it was; one more [add] of a
    parameter or a field leaves it. *)
Theorem composite_enctype (nm : pyval) (m0 : multi) (calls : list (list content)) :
  MultiContent_init nm = Ok m0 ->
  all_supported (content_list (add_calls calls m0)) = true /\
  enctype (as_content (add_calls calls m0)) =
    PStr (if forallb is_plain (content_list (add_calls calls m0))
          then APPLICATION_X_WWW_FORM_URLENCODED
          else MULTIPART_FORM_DATA) /\
  existsb is_part (content_list (add_calls calls m0)) =
    negb (forallb is_plain (content_list (add_calls calls m0))) /\
  APPLICATION_X_WWW_FORM_URLENCODED <> MULTIPART_FORM_DATA /\
  content_list (add_calls calls m0) = flat_map supported_prefix calls /\
  (forall c,
     _exact_is_instance c supported = true ->
     content_list (add_calls (calls ++ [[c]]) m0)
       = (content_list (add_calls calls m0) ++ [c])%list /\
     enctype (as_content (add_calls (calls ++ [[c]]) m0)) =
       if is_part c then PStr MULTIPART_FORM_DATA
       else enctype (as_content (add_calls calls m0))).
Proof.
  intros H. destruct nm; try discriminate. inversion H; subst m0; clear H.
  destruct (multi_inv_add_calls calls (mkMulti t [] APPLICATION_X_WWW_FORM_URLENCODED))
    as [Hs He]; [split; reflexivity|].
  split; [exact Hs|]. split; [|split; [|split; [|split]]].
  - cbn [as_content enctype]. rewrite He. unfold expected_enctype.
    rewrite (is_part_not_plain _ Hs).
    destruct (forallb is_plain _); reflexivity.
  - apply is_part_not_plain. exact Hs.
  - discriminate.
  - rewrite content_list_add_calls. reflexivity.
  - intros c Hc. rewrite add_calls_snoc.
    rewrite add_supported by (cbn; rewrite Hc; reflexivity).
    cbn [fst content_list as_content enctype multi_enctype existsb].
    split; [reflexivity|].
    rewrite orb_false_r. destruct (is_part c); reflexivity.
Qed.

Lemma composite_enctype_witness :
  all_supported (content_list (add_calls mixed_calls empty_form)) = true /\
  enctype (as_content (add_calls mixed_calls empty_form)) =
    PStr (if forallb is_plain (content_list (add_calls mixed_calls empty_form))
          then APPLICATION_X_WWW_FORM_URLENCODED
          else MULTIPART_FORM_DATA) /\
  existsb is_part (content_list (add_calls mixed_calls empty_form)) =
    negb (forallb is_plain (content_list (add_calls mixed_calls empty_form))) /\
  APPLICATION_X_WWW_FORM_URLENCODED <> MULTIPART_FORM_DATA /\
  content_list (add_calls mixed_calls empty_form)
    = flat_map supported_prefix mixed_calls /\
  (forall c,
     _exact_is_instance c supported = true ->
     content_list (add_calls (mixed_calls ++ [[c]]) empty_form)
       = (content_list (add_calls mixed_calls empty_form) ++ [c])%list /\
     enctype (as_content (add_calls (mixed_calls ++ [[c]]) empty_form)) =
       if is_part c then PStr MULTIPART_FORM_DATA
       else enctype (as_content (add_calls mixed_calls empty_form))).
Proof.
  apply (composite_enctype (PStr "form") empty_form mixed_calls).
  reflexivity.
Defined.

Example composite_members :
  content_list (add_calls mixed_calls empty_form)
  = (same_name_fields ++ [readme_file] ++ same_name_fields)%list.
Proof. reflexivity. Qed.

Example enctype_flips :
  enctype (as_content (add_calls [same_name_fields] empty_form))
    = PStr APPLICATION_X_WWW_FORM_URLENCODED /\
  enctype (as_content (add_calls [same_name_fields; [readme_file]] empty_form))
    = PStr MULTIPART_FORM_DATA.
Proof. split; reflexivity. Qed.

(** C8, as the code has it: [add] raises [TypeError] at the first
    unsupported member; the supported members before it in the call are
    then already members, and the content type already follows them;
    the unsupported member and the ones after it are not added. *)
Theorem add_stops_at_unsupported (pre post : list content) (bad : content)
  (self : multi) :
  all_supported pre = true ->
  _exact_is_instance bad supported = false ->
  add (pre ++ bad :: post) self =
  (mkMulti (multi_name self) (content_list self ++ pre)
           (if existsb is_part pre then MULTIPART_FORM_DATA
            else multi_enctype self),
   Raise (unsupported_content bad)).
Proof.
  intros Hp Hb. rewrite add_app. unfold seq.
  rewrite (add_supported pre self Hp).
  apply add_unsupported. exact Hb.
Qed.

Lemma add_stops_at_unsupported_witness :
  add ([readme_file] ++ nested_form :: same_name_fields) empty_form =
  (mkMulti (Str "form") [readme_file] MULTIPART_FORM_DATA,
   Raise (TypeError "Unsupported Content (MultiContent)")).
Proof.
  apply (add_stops_at_unsupported [readme_file] same_name_fields nested_form
           empty_form); reflexivity.
Defined.

(** C8, as the claim has it, fails: after [add(file, nested)] on an
    empty composite has raised, the file is a member and the content
    type has become [multipart/form-data]. *)
Lemma add_failure_is_not_atomic :
  snd (add [readme_file; nested_form] empty_form)
    = Raise (unsupported_content nested_form) /\
  content_list (fst (add [readme_file; nested_form] empty_form))
    <> content_list empty_form /\
  multi_enctype (fst (add [readme_file; nested_form] empty_form))
    <> multi_enctype empty_form.
Proof. repeat split; discriminate. Qed.

(** ** [build] and the instance *)

Lemma build_loop_app l r p :
  build_loop (l ++ r) p = (p' <- build_loop l p ;; build_loop r p').
Proof.
  revert p. induction l as [|c l IH]; intros p; [reflexivity|].
  cbn [app build_loop]. destruct (collect c (build c) p); cbn [bind];
    [apply IH | reflexivity].
Qed.

Lemma build_prefix n l r e b :
  build (MultiContent n (l ++ r) e) = Ok b ->
  exists b', forall e', build (MultiContent n l e') = Ok b'.
Proof.
  rewrite build_multi, build_loop_app.
  destruct (build_loop l _) as [p|] eqn:E; cbn [bind]; [|discriminate].
  intros _. exists (to_pyval p). intros e'. rewrite build_multi, E. reflexivity.
Qed.

(** C9: [build] leaves the instance as it is and a second [build] gives
    what the first gave; and [add(f1); build(); add(f2); build()] returns
    a bundle exactly when [add(f1, f2); build()] does, the same bundle
    and the same instance. *)
Theorem build_is_pure (self : multi) (f1 f2 : content) :
  fst (call_build self) = self /\
  seq call_build call_build self = call_build self /\
  (forall self' b,
     one_by_one f1 f2 self = (self', Ok b) <->
     both_at_once f1 f2 self = (self', Ok b)).
Proof.
  split; [reflexivity|]. split.
  - unfold seq, call_build. destruct (build (as_content self)); reflexivity.
  - intros self' b. unfold one_by_one, both_at_once, call_add.
    change [f1; f2] with ([f1] ++ [f2])%list. unfold seq at 4. rewrite add_app.
    unfold seq, call_build.
    destruct (_exact_is_instance f1 supported) eqn:S1.
    + rewrite (add_supported [f1] self) by (simpl; rewrite S1; reflexivity).
      destruct (_exact_is_instance f2 supported) eqn:S2.
      * rewrite add_supported by (simpl; rewrite S2; reflexivity).
        unfold as_content. cbn [multi_name content_list multi_enctype].
        match goal with
        | |- context [build (MultiContent ?n (content_list self ++ [f1]) ?e)] =>
            destruct (build (MultiContent n (content_list self ++ [f1]) e)) eqn:B1
        end.
        -- reflexivity.
        -- split; [discriminate|]. intros H.
           apply (f_equal snd) in H. cbn [snd] in H.
           destruct (build_prefix _ _ _ _ _ H) as [b' Hb'].
           rewrite Hb' in B1. discriminate.
      * rewrite add_unsupported by exact S2.
        destruct (build _); split; discriminate.
    + rewrite add_unsupported by exact S1. split; discriminate.
Qed.

Example one_by_one_returns :
  snd (one_by_one (FieldContent (Str "field2") (Str "narutobaco"))
                  (FieldContent (Str "field2") (Str "sasuketamin")) empty_form)
  = Ok (PDict
          [(Str "params", PDict []);
           (Str "data",
            PDict [(Str "field2",
                    PList [PStr "narutobaco"; PStr "sasuketamin"])]);
           (Str "files", PDict [])]).
Proof. reflexivity. Qed.

(** ** [JSONContent.__init__] *)

(** C6, as the code has it: when [json.dumps(json, allow_nan=False)]
    raises, no [JSONContent] is constructed.  A [ValueError] of the
    serializer (a NaN or an infinity) is replaced by the [ValueError] of
    the constructor; the only other error of the serializer, the
    [TypeError] for a value that is not JSON-serializable, goes through
    as it is. *)
Theorem JSONContent_init_unserializable (n : text) (json : pyval) :
  is_ok (jsondumps false json) = false ->
  exists e,
    jsondumps false json = Raise e /\
    ((is_value_error e = true /\
      JSONContent_init (PText n) json =
      Raise (ValueError "json is expected a serializable json object")) \/
     (is_type_error e = true /\
      JSONContent_init (PText n) json = Raise e)).
Proof.
  intros H. destruct (jsondumps false json) as [s|e] eqn:E; [discriminate|].
  exists e. split; [reflexivity|].
  pose proof (JsonFacts.dumps_fails_well false json e E) as K.
  unfold JSONContent_init. cbn [check_name bind]. rewrite E.
  destruct e; try discriminate.
  - right. split; reflexivity.
  - left. split; reflexivity.
Qed.

Lemma JSONContent_init_unserializable_witness :
  exists e,
    jsondumps false (PDict [(Str "a", PList [PInt 1; PFloat NaN])]) = Raise e /\
    ((is_value_error e = true /\
      JSONContent_init (PText (Str "meta"))
                       (PDict [(Str "a", PList [PInt 1; PFloat NaN])]) =
      Raise (ValueError "json is expected a serializable json object")) \/
     (is_type_error e = true /\
      JSONContent_init (PText (Str "meta"))
                       (PDict [(Str "a", PList [PInt 1; PFloat NaN])]) = Raise e)).
Proof.
  apply (JSONContent_init_unserializable (Str "meta")
           (PDict [(Str "a", PList [PInt 1; PFloat NaN])])).
  reflexivity.
Defined.

(** C6, as the claim has it, fails: a [set] does not serialize, and the
    constructor raises the serializer's [TypeError], not a
    [ValueError]. *)
Lemma JSONContent_init_type_error :
  is_ok (jsondumps false a_set) = false /\
  JSONContent_init (PStr "meta") a_set =
  Raise (TypeError "Object of type set is not JSON serializable") /\
  forall msg, JSONContent_init (PStr "meta") a_set <> Raise (ValueError msg).
Proof. repeat split. discriminate. Qed.

Lemma JSONContent_init_ok n json c :
  JSONContent_init n json = Ok c -> init_ok c = true.
Proof.
  unfold JSONContent_init. destruct (check_name n); cbn [bind]; [|discriminate].
  destruct (jsondumps false json) as [s|e] eqn:E.
  - intros H; inversion H; subst. cbn [init_ok]. rewrite E. reflexivity.
  - destruct e; discriminate.
Qed.

(** ** [FileContent.__init__] *)

Module PathFacts.

Lemma take_drop n s : s = Path.take n s ++ Path.drop n s.
Proof.
  revert s. induction n as [|n IH]; intros s; [reflexivity|].
  destruct s as [|a r]; [reflexivity|]. simpl. rewrite <- IH. reflexivity.
Qed.

Lemma rfind_spec c s :
  match Path.rfind c s with
  | Some n =>
      Path.take (S n) s = Path.take n s ++ String c EmptyString /\
      Path.contains c (Path.drop (S n) s) = false
  | None => Path.contains c s = false
  end.
Proof.
  induction s as [|a r IH]; [reflexivity|].
  cbn [Path.rfind]. destruct (Path.rfind c r) as [n|].
  - destruct IH as [T D]. split.
    + change (Path.take (S (S n)) (String a r)) with (String a (Path.take (S n) r)).
      rewrite T. reflexivity.
    + exact D.
  - destruct (Ascii.eqb a c) eqn:E.
    + apply Ascii.eqb_eq in E; subst a. split; [reflexivity | exact IH].
    + cbn [Path.contains]. rewrite E, IH. reflexivity.
Qed.

(** The tail of [split] is what follows the last slash: it has no slash,
    and what precedes it is empty or ends with a slash. *)
Lemma split_tail p :
  exists prefix,
    p = prefix ++ snd (Path.split p) /\
    Path.contains Path.sep (snd (Path.split p)) = false /\
    (prefix = EmptyString \/ exists q, prefix = q ++ slash).
Proof.
  unfold Path.split. cbn [snd].
  pose proof (rfind_spec Path.sep p) as H.
  destruct (Path.rfind Path.sep p) as [n|].
  - destruct H as [T D]. exists (Path.take (S n) p). split; [apply take_drop|].
    split; [exact D|]. right. exists (Path.take n p). exact T.
  - exists EmptyString. split; [reflexivity|]. split; [exact H|]. left; reflexivity.
Qed.

End PathFacts.

(** C7, as the code has it: for a file-like [file], construction raises
    [ValueError] exactly when no file name is there at all, neither the
    argument nor the [name] of the file giving other than [None]; any
    name that is there, the empty one too, is accepted, and the stored
    file name is its last path component: what follows its last slash,
    or all of it when it has none. *)
Theorem FileContent_init_filename (guess_type : string -> option string)
  (n : text) (file : pyval) (fname : option string) :
  is_file file = true ->
  match resolve_filename file fname with
  | None =>
      FileContent_init guess_type (PText n) file fname =
      Raise (ValueError ("Please provide filename explicitly if "
                         ++ "file doesn't have name attribute"))
  | Some r =>
      exists stored enc prefix,
        FileContent_init guess_type (PText n) file fname =
        Ok (FileContent n file stored enc) /\
        r = prefix ++ stored /\
        Path.contains Path.sep stored = false /\
        (prefix = EmptyString \/ exists q, prefix = q ++ slash)
  end.
Proof.
  intros F. unfold FileContent_init, is_file in *. cbn [check_name bind].
  rewrite F. cbn [negb].
  destruct (resolve_filename file fname) as [r|]; [|reflexivity].
  destruct (PathFacts.split_tail r) as (prefix & E & C & P).
  eexists; eexists; exists prefix. split; [reflexivity|].
  repeat split; assumption.
Qed.

Lemma FileContent_init_filename_witness :
  exists stored enc prefix,
    FileContent_init guess_txt (PText (Str "file")) (PText (Bytes "0101"))
                     (Some "/home/user/notes.txt") =
    Ok (FileContent (Str "file") (PText (Bytes "0101")) stored enc) /\
    "/home/user/notes.txt" = prefix ++ stored /\
    Path.contains Path.sep stored = false /\
    (prefix = EmptyString \/ exists q, prefix = q ++ slash).
Proof.
  apply (FileContent_init_filename guess_txt (Str "file") (PText (Bytes "0101"))
           (Some "/home/user/notes.txt")).
  reflexivity.
Defined.

Example FileContent_init_notes :
  FileContent_init guess_txt (PStr "file") (PText (Bytes "0101"))
                   (Some "/home/user/notes.txt") =
  Ok (FileContent (Str "file") (PText (Bytes "0101")) "notes.txt" "text/plain").
Proof. reflexivity. Qed.

Example FileContent_init_no_name :
  FileContent_init guess_txt (PStr "file") (PText (Bytes "0101")) None =
  Raise (ValueError ("Please provide filename explicitly if "
                     ++ "file doesn't have name attribute")).
Proof. reflexivity. Qed.

(** C7, as the claim has it, fails: with the empty string as the file
    name argument no non-empty name is resolved, and the constructor
    returns an instance whose file name is empty. *)
Lemma FileContent_init_empty_filename :
  resolve_filename (PText (Bytes "0101")) (Some EmptyString) = Some EmptyString /\
  FileContent_init guess_txt (PStr "file") (PText (Bytes "0101"))
                   (Some EmptyString) =
  Ok (FileContent (Str "file") (PText (Bytes "0101")) EmptyString
                  APPLICATION_OCTET_STREAM).
Proof. split; reflexivity. Qed.

(** ** Which error a value that does not serialize gives *)

Lemma json_typed_value_error a v :
  json_typed v = true ->
  forall e, jsondumps a v = Raise e -> is_value_error e = true.
Proof.
  induction v as [| b | z | f | t | l IH | l IH | d IH | o]
    using pyval_nested_ind; intros T e.
  - discriminate.
  - destruct b; discriminate.
  - discriminate.
  - destruct f, a; simpl; try discriminate; intros H; inversion H; reflexivity.
  - destruct t; [discriminate | discriminate T].
  - rewrite JsonFacts.dumps_PList. cbn [json_typed] in T.
    assert (L : forall e, dumps_list a l = Raise e -> is_value_error e = true).
    { clear e. induction IH as [|x r Hx _ IHr]; intros e; [discriminate|].
      cbn [forallb] in T. apply andb_true_iff in T as [Tx Tr].
      cbn [dumps_list]. destruct (jsondumps a x) eqn:E; cbn [bind].
      - destruct (dumps_list a r) eqn:F; cbn [bind]; [discriminate|].
        intros H; inversion H; subst. apply (IHr Tr). reflexivity.
      - intros H; inversion H; subst. apply (Hx Tx). reflexivity. }
    destruct (dumps_list a l) eqn:E; cbn [bind]; [discriminate|].
    intros H; inversion H; subst. apply L. reflexivity.
  - rewrite JsonFacts.dumps_PTuple. cbn [json_typed] in T.
    assert (L : forall e, dumps_list a l = Raise e -> is_value_error e = true).
    { clear e. induction IH as [|x r Hx _ IHr]; intros e; [discriminate|].
      cbn [forallb] in T. apply andb_true_iff in T as [Tx Tr].
      cbn [dumps_list]. destruct (jsondumps a x) eqn:E; cbn [bind].
      - destruct (dumps_list a r) eqn:F; cbn [bind]; [discriminate|].
        intros H; inversion H; subst. apply (IHr Tr). reflexivity.
      - intros H; inversion H; subst. apply (Hx Tx). reflexivity. }
    destruct (dumps_list a l) eqn:E; cbn [bind]; [discriminate|].
    intros H; inversion H; subst. apply L. reflexivity.
  - rewrite JsonFacts.dumps_PDict. cbn [json_typed] in T.
    assert (L : forall e, dumps_items a d = Raise e -> is_value_error e = true).
    { clear e. induction IH as [|[k x] r Hx _ IHr]; intros e; [discriminate|].
      cbn [forallb] in T. apply andb_true_iff in T as [Tx Tr].
      destruct k as [s|s]; [|discriminate Tx].
      cbn [dumps_items Json.encode_key bind snd] in *.
      destruct (jsondumps a x) eqn:E; cbn [bind].
      - destruct (dumps_items a r) eqn:F; cbn [bind]; [discriminate|].
        intros H; inversion H; subst. apply (IHr Tr). reflexivity.
      - intros H; inversion H; subst. apply (Hx Tx). reflexivity. }
    destruct (dumps_items a d) eqn:E; cbn [bind]; [discriminate|].
    intros H; inversion H; subst. apply L. reflexivity.
  - discriminate T.
Qed.

(** A value of JSON's types that does not serialize with
    [allow_nan=False] holds a NaN or an infinity, and the constructor
    raises its [ValueError]. *)
Lemma JSONContent_init_json_typed n json :
  json_typed json = true ->
  is_ok (jsondumps false json) = false ->
  JSONContent_init (PText n) json =
  Raise (ValueError "json is expected a serializable json object").
Proof.
  intros T H. unfold JSONContent_init. cbn [check_name bind].
  destruct (jsondumps false json) as [s|e] eqn:E; [discriminate|].
  pose proof (json_typed_value_error false json T e E) as V.
  destruct e; try discriminate. reflexivity.
Qed.

Lemma constructed_init_ok (guess_type : string -> option string) c :
  (exists n v, ParamContent_init n v = Ok c) \/
  (exists n v, FieldContent_init n v = Ok c) \/
  (exists n f fn, FileContent_init guess_type n f fn = Ok c) \/
  (exists n j, JSONContent_init n j = Ok c) ->
  init_ok c = true /\ _exact_is_instance c supported = true.
Proof.
  intros [(n & v & H) | [(n & v & H) | [(n & f & fn & H) | (n & j & H)]]].
  - unfold ParamContent_init in H. destruct (check_name n); [|discriminate].
    cbn [bind] in H. destruct v; try discriminate.
    inversion H; subst. split; reflexivity.
  - unfold FieldContent_init in H. destruct (check_name n); [|discriminate].
    cbn [bind] in H. destruct v; try discriminate.
    inversion H; subst. split; reflexivity.
  - unfold FileContent_init in H. destruct (check_name n); [|discriminate].
    cbn [bind] in H. destruct (negb _); [discriminate|].
    destruct (resolve_filename f fn); [|discriminate].
    inversion H; subst. split; reflexivity.
  - split; [exact (JSONContent_init_ok n j c H)|].
    unfold JSONContent_init in H. destruct (check_name n); [|discriminate].
    cbn [bind] in H. destruct (jsondumps false j) as [s|e]; [|destruct e; discriminate].
    inversion H; subst. reflexivity.
Qed.

(** * Further properties of the code *)

(** ** The constructors *)

(** X1: every constructor checks the name first: a name that is neither
    [str] nor [bytes] gives the [TypeError] of [Content.__init__]
    whatever the other arguments are, valid or not. *)
Theorem constructors_check_name_first (guess_type : string -> option string)
  (nm : pyval) :
  is_str_or_bytes nm = false ->
  (forall v, ParamContent_init nm v = Raise name_error) /\
  (forall v, FieldContent_init nm v = Raise name_error) /\
  (forall file fn, FileContent_init guess_type nm file fn = Raise name_error) /\
  (forall j, JSONContent_init nm j = Raise name_error) /\
  MultiContent_init nm = Raise name_error.
Proof.
  intros H. destruct nm; try discriminate H; repeat split; reflexivity.
Qed.

Lemma constructors_check_name_first_witness :
  (forall v, ParamContent_init (PInt 7) v = Raise name_error) /\
  (forall v, FieldContent_init (PInt 7) v = Raise name_error) /\
  (forall file fn, FileContent_init guess_txt (PInt 7) file fn = Raise name_error) /\
  (forall j, JSONContent_init (PInt 7) j = Raise name_error) /\
  MultiContent_init (PInt 7) = Raise name_error.
Proof.
  apply (constructors_check_name_first guess_txt (PInt 7)). reflexivity.
Defined.

(** X2: a parameter and a field made from a text name and a text value
    build to the one-entry dictionary under [params], respectively
    [data], and [_extract] of that dictionary gives the name and the
    value back. *)
Theorem param_field_round_trip (n v : text) :
  exists p f,
    ParamContent_init (PText n) (PText v) = Ok p /\
    FieldContent_init (PText n) (PText v) = Ok f /\
    build p = Ok (PDict [(Str "params", PDict [(n, PText v)])]) /\
    build f = Ok (PDict [(Str "data", PDict [(n, PText v)])]) /\
    extract_built p "params" = Ok (n, PText v) /\
    extract_built f "data" = Ok (n, PText v) /\
    extract_built p "data" = Raise (KeyError (Str "data")) /\
    extract_built f "params" = Raise (KeyError (Str "params")).
Proof.
  exists (ParamContent n v), (FieldContent n v).
  unfold extract_built. cbn. rewrite text_eqb_refl. repeat split; reflexivity.
Qed.

(** X3: with a text name, a parameter and a field are constructed
    exactly when the value is [str] or [bytes]; any other value gives
    the [TypeError] for the value. *)
Theorem param_field_value_check (n : text) (value : pyval) :
  is_str_or_bytes value = false ->
  ParamContent_init (PText n) value = Raise value_error /\
  FieldContent_init (PText n) value = Raise value_error.
Proof.
  intros H. destruct value; try discriminate H; split; reflexivity.
Qed.

Lemma param_field_value_check_witness :
  ParamContent_init (PText (Str "p")) (PInt 1) = Raise value_error /\
  FieldContent_init (PText (Str "p")) (PInt 1) = Raise value_error.
Proof.
  apply (param_field_value_check (Str "p") (PInt 1)). reflexivity.
Defined.

(** ** The helpers of [MultiContent._build] *)

(** X4: [_extract] returns the entry of a dictionary that has exactly
    one; on the empty dictionary and on one with two entries or more it
    raises the [ValueError] that tells the number of entries. *)
Theorem extract_one_element (d : Dict.t pyval) :
  match d with
  | [(k, v)] => _extract (PDict d) = Ok (k, v)
  | _ => _extract (PDict d) = Raise (extract_error (length d))
  end.
Proof.
  destruct d as [|[k v] [|kv r]].
  - reflexivity.
  - cbn. rewrite text_eqb_refl. reflexivity.
  - unfold _extract, Dict.keys, extract_error. rewrite length_map. reflexivity.
Qed.

(** X5: after [_create_or_append(d, k, v)] the key [k] holds its former
    list with [v] at the end, or [[v]] when it was absent; every other
    key holds what it held; a new key goes last and no key moves. *)
Theorem create_or_append_lookup (d : Dict.t (list pyval)) (k n : text) (v : pyval) :
  Dict.get n (_create_or_append d k v) =
    (if text_eqb n k
     then Some (match Dict.get k d with Some l => l ++ [v] | None => [v] end)%list
     else Dict.get n d) /\
  Dict.keys (_create_or_append d k v) =
    (if Dict.mem k d then Dict.keys d else Dict.keys d ++ [k])%list.
Proof.
  split; [apply get_create_or_append|].
  unfold _create_or_append.
  destruct (Dict.mem k d) eqn:M; cbn [negb].
  - pose proof (DictFacts.mem_get k d) as G. rewrite M in G.
    destruct (Dict.get k d) as [l|]; [|discriminate].
    apply DictFacts.keys_set_old. exact M.
  - unfold Dict.update. cbn [fold_left fst snd].
    rewrite DictFacts.keys_set_new by exact M.
    unfold Dict.keys. rewrite map_app. reflexivity.
Qed.

(** X6: [_create_or_raise(d, k, v)] raises [DuplicateValue] for [k]
    exactly when [k] is a key of [d]; otherwise the dictionary it leaves
    is [d] with [k] added last, holding [v], and every other key holds
    what it held. *)
Theorem create_or_raise_spec (d : Dict.t pyval) (k : text) (v : pyval) :
  if Dict.mem k d
  then _create_or_raise d k v = Raise (DuplicateValue k)
  else exists d',
         _create_or_raise d k v = Ok d' /\
         Dict.keys d' = (Dict.keys d ++ [k])%list /\
         Dict.get k d' = Some v /\
         forall n, n <> k -> Dict.get n d' = Dict.get n d.
Proof.
  destruct (Dict.mem k d) eqn:M.
  - apply create_or_raise_old. exact M.
  - exists (Dict.set k v d). unfold _create_or_raise. rewrite M.
    split; [reflexivity|]. split; [|split].
    + rewrite DictFacts.keys_set_new by exact M.
      unfold Dict.keys. rewrite map_app. reflexivity.
    + rewrite DictFacts.get_set, text_eqb_refl. reflexivity.
    + intros n Hn. rewrite DictFacts.get_set.
      apply text_eqb_neq in Hn. rewrite Hn. reflexivity.
Qed.

Lemma pyclass_eqb_eq a b : pyclass_eqb a b = true <-> a = b.
Proof.
  revert b. induction a as [| | | | |n a IH]; intros [| | | | |m b]; simpl;
    try (split; [reflexivity | reflexivity]);
    try (split; intros H; discriminate H).
  rewrite andb_true_iff, String.eqb_eq, IH. split.
  - intros [-> ->]. reflexivity.
  - intros H. inversion H. split; reflexivity.
Qed.

Lemma issubclass_refl a : issubclass a a = true.
Proof.
  assert (E : pyclass_eqb a a = true) by (apply pyclass_eqb_eq; reflexivity).
  destruct a; simpl in *; try reflexivity. rewrite E. reflexivity.
Qed.

(** X7: [_exact_is_instance] holds exactly when the type of the object
    is one of the classes: the [isinstance] test it starts with never
    decides.  So an instance of a subclass of a supported class, which
    [isinstance] accepts, is not supported. *)
Theorem exact_is_instance_type (c : content) (classes : list pyclass) :
  _exact_is_instance c classes = existsb (pyclass_eqb (type_of c)) classes /\
  (forall cn, isinstance_any c supported = true ->
              isinstance_any (Subclass cn c) supported = true /\
              _exact_is_instance (Subclass cn c) supported = false).
Proof.
  split.
  - unfold _exact_is_instance.
    destruct (existsb (pyclass_eqb (type_of c)) classes) eqn:E.
    + apply existsb_exists in E as [cls [Hin Heq]].
      apply pyclass_eqb_eq in Heq. subst cls.
      assert (I : isinstance_any c classes = true).
      { apply existsb_exists. exists (type_of c). split; [exact Hin|].
        apply issubclass_refl. }
      rewrite I. reflexivity.
    + destruct (negb _); reflexivity.
  - intros cn H. split; [|apply unsupported_subclass].
    unfold isinstance_any, isinstance in *. cbn [type_of].
    apply existsb_exists in H as [cls [Hin Hs]].
    apply existsb_exists. exists cls. split; [exact Hin|].
    cbn [issubclass]. rewrite Hs. apply orb_true_r.
Qed.

(** ** [MultiContent.add], further *)

(** X8: [add] returns exactly when every argument is supported; in
    every case it leaves the name as it is and the members it had in
    place, followed by the arguments up to the first unsupported one. *)
Theorem add_appends_supported_prefix (l : list content) (self : multi) :
  (snd (add l self) = Ok tt <-> all_supported l = true) /\
  multi_name (fst (add l self)) = multi_name self /\
  content_list (fst (add l self)) = (content_list self ++ supported_prefix l)%list.
Proof.
  revert self. induction l as [|c r IH]; intros self.
  - cbn. rewrite app_nil_r. repeat split; reflexivity.
  - cbn [add supported_prefix all_supported forallb].
    destruct (_exact_is_instance c supported) eqn:S; cbn [negb andb].
    + match goal with
      | |- context [add r ?s] => destruct (IH s) as (I1 & I2 & I3)
      end.
      split; [exact I1|]. split.
      * rewrite I2. destruct (negb _); reflexivity.
      * rewrite I3. destruct (negb _); cbn [content_list];
          rewrite <- app_assoc; reflexivity.
    + cbn [fst snd]. rewrite app_nil_r.
      repeat split; try reflexivity; intros H; discriminate H.
Qed.

(** X9: a run of [add] calls whose arguments are all supported leaves
    the instance that one [add] call with all the arguments in the same
    order leaves. *)
Theorem add_calls_concat (calls : list (list content)) (self : multi) :
  forallb all_supported calls = true ->
  add_calls calls self = fst (add (concat calls) self).
Proof.
  unfold add_calls. revert self.
  induction calls as [|l r IH]; intros self H; [reflexivity|].
  cbn [forallb] in H. apply andb_true_iff in H as [Hl Hr].
  cbn [fold_left concat]. rewrite IH by exact Hr.
  rewrite add_app. unfold seq.
  rewrite (add_supported l self Hl). reflexivity.
Qed.

Lemma add_calls_concat_witness :
  add_calls [same_name_fields; [readme_file]; same_name_fields] empty_form =
  fst (add (concat [same_name_fields; [readme_file]; same_name_fields]) empty_form).
Proof.
  apply (add_calls_concat [same_name_fields; [readme_file]; same_name_fields]
           empty_form).
  reflexivity.
Defined.

(** ** [MultiContent._build], further *)

(** X10: a composite whose [build] raises keeps raising the same
    exception whatever members are added after: the loop stops at the
    member it stopped at. *)
Theorem composite_failure_is_permanent (n : text) (l r : list content)
  (e e' : string) (x : exn) :
  build (MultiContent n l e) = Raise x ->
  build (MultiContent n (l ++ r) e') = Raise x.
Proof.
  rewrite !build_multi, build_loop_app.
  destruct (build_loop l _) as [p|y]; cbn [bind]; [discriminate|].
  intros H. exact H.
Qed.

Lemma composite_failure_is_permanent_witness :
  build (MultiContent (Str "form") (same_name_parts ++ same_name_fields)
                      MULTIPART_FORM_DATA)
  = Raise (DuplicateValue (Str "file")).
Proof.
  apply (composite_failure_is_permanent (Str "form") same_name_parts
           same_name_fields MULTIPART_FORM_DATA MULTIPART_FORM_DATA).
  reflexivity.
Defined.

Section DictShape.

Context {V : Type} (P : V -> bool).

Lemma forallb_set k v (d : Dict.t V) :
  forallb (fun kv => P (snd kv)) d = true ->
  P v = true ->
  forallb (fun kv => P (snd kv)) (Dict.set k v d) = true.
Proof.
  intros Hd Hv. induction d as [|[k0 v0] r IH]; cbn.
  - rewrite Hv. reflexivity.
  - cbn in Hd. apply andb_true_iff in Hd as [H0 Hr].
    destruct (text_eqb k k0); cbn.
    + rewrite Hv, Hr. reflexivity.
    + rewrite H0, IH by exact Hr. reflexivity.
Qed.

Lemma forallb_get k (d : Dict.t V) x :
  forallb (fun kv => P (snd kv)) d = true ->
  Dict.get k d = Some x ->
  P x = true.
Proof.
  induction d as [|[k0 v0] r IH]; cbn; intros Hd Hg; [discriminate|].
  apply andb_true_iff in Hd as [H0 Hr].
  destruct (text_eqb k k0); [inversion Hg; subst; exact H0 | auto].
Qed.

Lemma has_dup_set k v (d : Dict.t V) :
  has_dup (Dict.keys d) = false ->
  has_dup (Dict.keys (Dict.set k v d)) = false.
Proof.
  intros H. destruct (Dict.mem k d) eqn:M.
  - rewrite DictFacts.keys_set_old by exact M. exact H.
  - rewrite DictFacts.keys_set_new by exact M.
    unfold Dict.keys. rewrite map_app. cbn [map fst].
    rewrite has_dup_snoc. fold (Dict.keys d).
    rewrite <- DictFacts.mem_keys, M, H. reflexivity.
Qed.

End DictShape.

Lemma text_values_snoc l v :
  text_values l = true -> is_str_or_bytes v = true ->
  text_values (l ++ [v]) = true.
Proof.
  destruct l as [|x r]; [discriminate|]. intros H Hv.
  cbn [text_values app] in *. change (x :: (r ++ [v])%list) with ((x :: r) ++ [v])%list.
  rewrite forallb_app, H. cbn. rewrite Hv. reflexivity.
Qed.

Lemma create_or_append_shape d k v :
  is_str_or_bytes v = true ->
  has_dup (Dict.keys d) = false ->
  forallb (fun kv => text_values (snd kv)) d = true ->
  has_dup (Dict.keys (_create_or_append d k v)) = false /\
  forallb (fun kv => text_values (snd kv)) (_create_or_append d k v) = true.
Proof.
  intros Hv Hk Hd. unfold _create_or_append.
  destruct (negb (Dict.mem k d)).
  - unfold Dict.update. cbn [fold_left fst snd]. split.
    + apply has_dup_set. exact Hk.
    + apply forallb_set; [exact Hd|]. cbn. rewrite Hv. reflexivity.
  - destruct (Dict.get k d) as [l|] eqn:G; [|split; assumption]. split.
    + apply has_dup_set. exact Hk.
    + apply forallb_set; [exact Hd|]. apply text_values_snoc; [|exact Hv].
      exact (forallb_get text_values k d l Hd G).
Qed.

Lemma create_or_raise_shape d k v d' :
  is_part_tuple v = true ->
  has_dup (Dict.keys d) = false ->
  forallb (fun kv => is_part_tuple (snd kv)) d = true ->
  _create_or_raise d k v = Ok d' ->
  has_dup (Dict.keys d') = false /\
  forallb (fun kv => is_part_tuple (snd kv)) d' = true.
Proof.
  intros Hv Hk Hd. unfold _create_or_raise.
  destruct (Dict.mem k d); [discriminate|].
  intros H; inversion H; subst d'. unfold Dict.update. cbn [fold_left fst snd].
  split; [apply has_dup_set; exact Hk | apply forallb_set; assumption].
Qed.

Lemma well_shaped_iff p :
  well_shaped p = true <->
  (has_dup (Dict.keys (params p)) = false /\
   forallb (fun kv => text_values (snd kv)) (params p) = true) /\
  (has_dup (Dict.keys (data p)) = false /\
   forallb (fun kv => text_values (snd kv)) (data p) = true) /\
  (has_dup (Dict.keys (files p)) = false /\
   forallb (fun kv => is_part_tuple (snd kv)) (files p) = true).
Proof.
  unfold well_shaped. rewrite !andb_true_iff, !negb_true_iff. tauto.
Qed.

Lemma collect_shape c p p' :
  _exact_is_instance c supported = true ->
  well_shaped p = true ->
  collect c (build c) p = Ok p' ->
  well_shaped p' = true.
Proof.
  intros Hc Hp. apply well_shaped_iff in Hp as (HP & HD & HF).
  destruct (supported_cases c Hc)
    as [(n & v & ->) | [(n & v & ->) | [(n & f & fn & e & ->) | (n & j & ->)]]].
  - rewrite collect_param. intros H; inversion H; subst p'.
    apply well_shaped_iff. cbn [params data files].
    split; [|split; assumption].
    destruct HP. apply create_or_append_shape; trivial.
  - rewrite collect_field. intros H; inversion H; subst p'.
    apply well_shaped_iff. cbn [params data files].
    split; [assumption|]. split; [|assumption].
    destruct HD. apply create_or_append_shape; trivial.
  - rewrite collect_file.
    destruct (_create_or_raise _ _ _) as [fs|] eqn:E; cbn [bind]; [|discriminate].
    intros H; inversion H; subst p'.
    apply well_shaped_iff. cbn [params data files].
    split; [assumption|]. split; [assumption|].
    destruct HF. eapply create_or_raise_shape; [| | |exact E]; trivial.
  - rewrite collect_json.
    destruct (jsondumps true j) as [s|]; cbn [bind]; [|discriminate].
    destruct (_create_or_raise _ _ _) as [fs|] eqn:E; cbn [bind]; [|discriminate].
    intros H; inversion H; subst p'.
    apply well_shaped_iff. cbn [params data files].
    split; [assumption|]. split; [assumption|].
    destruct HF. eapply create_or_raise_shape; [| | |exact E]; trivial.
Qed.

Lemma build_loop_shape l p p' :
  all_supported l = true ->
  well_shaped p = true ->
  build_loop l p = Ok p' ->
  well_shaped p' = true.
Proof.
  revert p. induction l as [|c r IH]; intros p Hs Hp.
  - intros H; inversion H; subst; exact Hp.
  - cbn [all_supported forallb] in Hs. apply andb_true_iff in Hs as [Hc Hr].
    cbn [build_loop].
    destruct (collect c (build c) p) as [p1|] eqn:E; cbn [bind]; [|discriminate].
    apply (IH p1 Hr). exact (collect_shape c p p1 Hc Hp E).
Qed.

(** X11: when the [build] of a composite of supported members returns,
    the bundle has the three keys [params], [data], [files] and no
    other; in each of the three dictionaries no key occurs twice; every
    value of [params] and [data] is a list, not empty, of [str] and
    [bytes]; every value of [files] is a triple that ends with a content
    type. *)
Theorem composite_bundle_shape (n : text) (l : list content) (e : string)
  (b : pyval) :
  all_supported l = true ->
  build (MultiContent n l e) = Ok b ->
  exists p,
    b = PDict [(Str "params", PDict (lists (params p)));
               (Str "data", PDict (lists (data p)));
               (Str "files", PDict (files p))] /\
    well_shaped p = true.
Proof.
  intros Hs. rewrite build_multi.
  destruct (build_loop l _) as [p|] eqn:E; cbn [bind]; [|discriminate].
  intros H; inversion H; subst b. exists p. split; [reflexivity|].
  apply (build_loop_shape l (mkParameters [] [] []) p Hs); [reflexivity | exact E].
Qed.

Lemma composite_bundle_shape_witness :
  exists p,
    PDict [(Str "params", PDict [(Str "field2", PList [PStr "suboiz"])]);
           (Str "data",
            PDict [(Str "field2",
                    PList [PStr "narutobaco"; PStr "sasuketamin"])]);
           (Str "files", PDict [])]
    = PDict [(Str "params", PDict (lists (params p)));
             (Str "data", PDict (lists (data p)));
             (Str "files", PDict (files p))] /\
    well_shaped p = true.
Proof.
  apply (composite_bundle_shape (Str "form") same_name_fields
           APPLICATION_X_WWW_FORM_URLENCODED); reflexivity.
Defined.

(** ** [FileContent], further *)

(** X12: the two errors of [FileContent.__init__] after the name
    check: it raises the [TypeError] for the file exactly when the file
    is not file-like, whatever the file name argument; it raises the
    [ValueError] for the file name exactly when the file is file-like
    and no file name is there, the argument being [None] and the file
    without a [name] or with [None] for it. *)
Theorem FileContent_init_errors (guess_type : string -> option string)
  (n : text) (file : pyval) (fname : option string) :
  (FileContent_init guess_type (PText n) file fname = Raise file_error
   <-> is_file file = false) /\
  (FileContent_init guess_type (PText n) file fname = Raise filename_error
   <-> is_file file = true /\ resolve_filename file fname = None).
Proof.
  unfold FileContent_init, is_file, file_error, filename_error.
  cbn [check_name bind].
  destruct (is_str_or_bytes file || is_iobase file || has_iter file);
    cbn [negb].
  - destruct (resolve_filename file fname).
    + repeat split; try discriminate. intros [_ H]; discriminate H.
    + repeat split; try discriminate; reflexivity.
  - repeat split; try discriminate; try reflexivity. intros [H _]; discriminate H.
Qed.

(** X13: a file constructed from the file name [r] builds to its
    payload under [data], as it is, and to two headers: the content
    type, which is the guess for [r] or else [text/plain] for a [str] or
    a text stream and [application/octet-stream] for any other payload,
    and a content disposition that names the last path component of
    [r], in which no slash is left. *)
Theorem file_build_headers (guess_type : string -> option string) (n : text)
  (file : pyval) (fname : option string) (r : string) (c : content) :
  resolve_filename file fname = Some r ->
  FileContent_init guess_type (PText n) file fname = Ok c ->
  exists stored,
    build c =
    Ok (PDict
          [(Str "data", file);
           (Str "headers",
            PDict [(Str CONTENT_TYPE, PStr (resolved_enctype guess_type file r));
                   (Str CONTENT_DISPOSITION,
                    PStr ("attachment; filename=" ++ stored))])]) /\
    enctype c = PStr (resolved_enctype guess_type file r) /\
    filename c = Ok (PStr stored) /\
    name c = n /\
    stored = snd (Path.split r) /\
    Path.contains Path.sep stored = false.
Proof.
  intros R. unfold FileContent_init. cbn [check_name bind].
  destruct (negb _); [discriminate|]. rewrite R.
  intros H; inversion H; subst c. exists (snd (Path.split r)).
  destruct (PathFacts.split_tail r) as (prefix & _ & C & _).
  repeat split; try reflexivity. exact C.
Qed.

Lemma file_build_headers_witness :
  exists stored,
    build (FileContent (Str "doc") (PText (Bytes "0101")) "photo.bin"
                       APPLICATION_OCTET_STREAM) =
    Ok (PDict
          [(Str "data", PText (Bytes "0101"));
           (Str "headers",
            PDict [(Str CONTENT_TYPE,
                    PStr (resolved_enctype guess_txt (PText (Bytes "0101"))
                                           "/tmp/up/photo.bin"));
                   (Str CONTENT_DISPOSITION,
                    PStr ("attachment; filename=" ++ stored))])]) /\
    enctype (FileContent (Str "doc") (PText (Bytes "0101")) "photo.bin"
                         APPLICATION_OCTET_STREAM)
    = PStr (resolved_enctype guess_txt (PText (Bytes "0101")) "/tmp/up/photo.bin") /\
    filename (FileContent (Str "doc") (PText (Bytes "0101")) "photo.bin"
                          APPLICATION_OCTET_STREAM) = Ok (PStr stored) /\
    name (FileContent (Str "doc") (PText (Bytes "0101")) "photo.bin"
                      APPLICATION_OCTET_STREAM) = Str "doc" /\
    stored = snd (Path.split "/tmp/up/photo.bin") /\
    Path.contains Path.sep stored = false.
Proof.
  apply (file_build_headers guess_txt (Str "doc") (PText (Bytes "0101"))
           (Some "/tmp/up/photo.bin") "/tmp/up/photo.bin"); reflexivity.
Defined.

Lemma rfind_absent c s : Path.contains c s = false -> Path.rfind c s = None.
Proof.
  induction s as [|a r IH]; [reflexivity|]. cbn.
  intros H. apply orb_false_iff in H as [H1 H2].
  rewrite (IH H2), H1. reflexivity.
Qed.

Lemma split_no_slash s :
  Path.contains Path.sep s = false -> Path.split s = (EmptyString, s).
Proof.
  intros H. unfold Path.split. rewrite (rfind_absent _ _ H). reflexivity.
Qed.

(** X14: the file name a file has stored is kept as it is when it is
    passed as the file name of another file: stripping the directories
    is idempotent. *)
Theorem stored_filename_is_stable (guess_type : string -> option string)
  (n n' : text) (file file' : pyval) (fname : option string) (c : content) :
  FileContent_init guess_type (PText n) file fname = Ok c ->
  is_file file' = true ->
  exists stored c',
    filename c = Ok (PStr stored) /\
    FileContent_init guess_type (PText n') file' (Some stored) = Ok c' /\
    filename c' = Ok (PStr stored).
Proof.
  unfold FileContent_init, is_file. cbn [check_name bind].
  intros H F'. rewrite F'. cbn [negb].
  destruct (negb _); [discriminate|].
  destruct (resolve_filename file fname) as [r|]; [|discriminate].
  inversion H; subst c.
  destruct (PathFacts.split_tail r) as (prefix & _ & C & _).
  exists (snd (Path.split r)). eexists. split; [reflexivity|].
  unfold resolve_filename. rewrite (split_no_slash _ C). cbn [snd].
  split; reflexivity.
Qed.

Lemma stored_filename_is_stable_witness :
  exists stored c',
    filename (FileContent (Str "doc") (PText (Bytes "0101")) "notes.txt"
                          "text/plain") = Ok (PStr stored) /\
    FileContent_init guess_txt (PText (Str "copy")) (PText (Str "abc"))
                     (Some stored) = Ok c' /\
    filename c' = Ok (PStr stored).
Proof.
  apply (stored_filename_is_stable guess_txt (Str "doc") (Str "copy")
           (PText (Bytes "0101")) (PText (Str "abc"))
           (Some "/home/user/notes.txt")); reflexivity.
Defined.

(** ** [JSONContent], further *)

(** X15: a JSON value that its constructor accepted builds to itself
    under [json].  Added after the members of a composite whose loop
    returns, it makes [build] raise in one case only, its name being a
    key of [files] already, and then [DuplicateValue]; in every other
    case [build] returns, and [files] has one more entry, under its
    name: the very string the constructor's check produced, no NaN
    allowed, with the JSON content type.  The serialization at [build]
    never raises. *)
Theorem JSONContent_constructed_builds (n nm : text) (json : pyval) (e : string)
  (c : content) (l : list content) (p : parameters) :
  JSONContent_init (PText n) json = Ok c ->
  build_loop l (mkParameters [] [] []) = Ok p ->
  exists s,
    jsondumps false json = Ok s /\
    build c = Ok (PDict [(Str "json", json)]) /\
    enctype c = PStr APPLICATION_JSON /\
    build (MultiContent nm l e) = Ok (to_pyval p) /\
    build (MultiContent nm (l ++ [c]) e) =
    if Dict.mem n (files p) then Raise (DuplicateValue n)
    else Ok (to_pyval
               (mkParameters
                  (params p) (data p)
                  (files p ++ [(n, PTuple [PNone; PStr s; PStr APPLICATION_JSON])])%list)).
Proof.
  unfold JSONContent_init. cbn [check_name bind].
  destruct (jsondumps false json) as [s|x] eqn:E; [|destruct x; discriminate].
  intros H L; inversion H; subst c. exists s.
  split; [reflexivity|]. split; [reflexivity|]. split; [reflexivity|].
  rewrite !build_multi, build_loop_app, L. cbn [bind build_loop].
  split; [reflexivity|].
  rewrite collect_json, (JsonFacts.dumps_lenient json s E). cbn [bind].
  destruct (Dict.mem n (files p)) eqn:M.
  - rewrite create_or_raise_old by exact M. reflexivity.
  - rewrite create_or_raise_new by exact M. reflexivity.
Qed.

Lemma JSONContent_constructed_builds_witness :
  exists s,
    jsondumps false (PList [PInt 1; PStr "a"; PNone]) = Ok s /\
    build (JSONContent (Str "file") (PList [PInt 1; PStr "a"; PNone]))
    = Ok (PDict [(Str "json", PList [PInt 1; PStr "a"; PNone])]) /\
    enctype (JSONContent (Str "file") (PList [PInt 1; PStr "a"; PNone]))
    = PStr APPLICATION_JSON /\
    build (MultiContent (Str "form") [readme_file] MULTIPART_FORM_DATA) =
    Ok (to_pyval
          (mkParameters [] []
             [(Str "file",
               PTuple [PStr "README.md"; report_stream 0; PStr TEXT_PLAIN])])) /\
    build (MultiContent (Str "form")
             ([readme_file]
              ++ [JSONContent (Str "file") (PList [PInt 1; PStr "a"; PNone])])%list
             MULTIPART_FORM_DATA) =
    if Dict.mem (Str "file")
         [(Str "file",
           PTuple [PStr "README.md"; report_stream 0; PStr TEXT_PLAIN])]
    then Raise (DuplicateValue (Str "file"))
    else Ok (to_pyval
               (mkParameters [] []
                  ([(Str "file",
                     PTuple [PStr "README.md"; report_stream 0; PStr TEXT_PLAIN])]
                   ++ [(Str "file",
                        PTuple [PNone; PStr s; PStr APPLICATION_JSON])])%list)).
Proof.
  apply (JSONContent_constructed_builds (Str "file") (Str "form")
           (PList [PInt 1; PStr "a"; PNone]) MULTIPART_FORM_DATA
           (JSONContent (Str "file") (PList [PInt 1; PStr "a"; PNone]))
           [readme_file]
           (mkParameters [] []
              [(Str "file",
                PTuple [PStr "README.md"; report_stream 0; PStr TEXT_PLAIN])]));
    reflexivity.
Defined.

Example JSONContent_alone_builds :
  build (MultiContent (Str "form")
           [JSONContent (Str "meta") (PList [PInt 1; PStr "a"; PNone])]
           MULTIPART_FORM_DATA) =
  Ok (PDict [(Str "params", PDict []);
             (Str "data", PDict []);
             (Str "files",
              PDict [(Str "meta",
                      PTuple [PNone;
                              PStr ("[1, " ++ Json.dq ++ "a" ++ Json.dq ++ ", null]");
                              PStr APPLICATION_JSON])])]).
Proof. reflexivity. Qed.

(** ** [App.crequest], further *)

Lemma get_remove_other {V : Type} k k' (d : Dict.t V) :
  text_eqb k k' = false -> Dict.get k (Dict.remove k' d) = Dict.get k d.
Proof.
  intros H. induction d as [|[k0 v0] r IH]; [reflexivity|].
  cbn. destruct (text_eqb k' k0) eqn:E.
  - apply text_eqb_eq in E; subst k0. rewrite H. exact IH.
  - cbn. rewrite IH. reflexivity.
Qed.

Lemma has_dup_remove {V : Type} k (d : Dict.t V) :
  has_dup (Dict.keys d) = false -> has_dup (Dict.keys (Dict.remove k d)) = false.
Proof.
  induction d as [|[k0 v0] r IH]; [reflexivity|].
  unfold Dict.keys in *. cbn [Dict.remove map fst has_dup].
  intros H. apply orb_false_iff in H as [H1 H2].
  destruct (text_eqb k k0); [exact (IH H2)|].
  cbn [map fst has_dup]. rewrite (IH H2), orb_false_r.
  change (map fst (Dict.remove k r)) with (Dict.keys (Dict.remove k r)).
  rewrite <- DictFacts.mem_keys, DictFacts.mem_remove, DictFacts.mem_keys.
  unfold Dict.keys. rewrite H1. apply andb_false_r.
Qed.

Lemma get_merge_headers_other (p p1 : Dict.t pyval) h k :
  merge_headers p h = Ok p1 ->
  text_eqb k (Str "headers") = false ->
  Dict.get k p1 = Dict.get k p.
Proof.
  unfold merge_headers. intros H K.
  destruct h as [h|]; [|inversion H; reflexivity].
  destruct (truthy h && Dict.mem (Str "headers") p); [|inversion H; reflexivity].
  destruct (Dict.get (Str "headers") p) as [[]|]; try discriminate.
  destruct (update_items h); cbn [bind] in H; [|discriminate].
  inversion H; subst p1. rewrite DictFacts.get_set, K. reflexivity.
Qed.

Section FacadeFurther.

Variable response : Type.
Variable request : pyval -> pyval -> Dict.t pyval -> result response.

(** X16: [crequest] ends in one of three ways: it raises before
    anything happened; it raises after the content was built, the
    engine not called; or it builds the content, calls the engine once
    and returns what the engine returned, be it a response or an
    exception. *)
Theorem crequest_outcomes (m u : pyval) (c : content) (kwargs : Dict.t pyval) :
  (fst (crequest response request m u c kwargs) = [] /\
   exists e, snd (crequest response request m u c kwargs) = Raise e) \/
  (fst (crequest response request m u c kwargs) = [Built c] /\
   exists e, snd (crequest response request m u c kwargs) = Raise e) \/
  (exists p,
     fst (crequest response request m u c kwargs) = [Built c; Requested m u p] /\
     snd (crequest response request m u c kwargs) = request m u p).
Proof.
  unfold crequest.
  destruct (existsb _ invalid_params);
    [left; split; [reflexivity | eexists; reflexivity]|].
  right. destruct (build c) as [b|e];
    [|left; split; [reflexivity | eexists; reflexivity]].
  destruct b; try (left; split; [reflexivity | eexists; reflexivity]).
  unfold Dict.pop.
  destruct (merge_headers d _) as [p1|e];
    [|left; split; [reflexivity | eexists; reflexivity]].
  right. eexists. split; reflexivity.
Qed.

(** X17: when the content does not build, [crequest] raises the
    exception of [build] and the engine is not called. *)
Theorem crequest_build_error (m u : pyval) (c : content) (kwargs : Dict.t pyval)
  (e : exn) :
  valid_overrides kwargs = true ->
  build c = Raise e ->
  crequest response request m u c kwargs = ([Built c], Raise e).
Proof.
  intros V B. unfold crequest, valid_overrides in *.
  apply negb_true_iff in V. rewrite V, B. reflexivity.
Qed.

(** X18: in the parameters the engine receives, the keys [data],
    [json], [files] and [params] hold what the content built, never
    anything of the caller's; every other key but [headers] holds the
    caller's value when the caller (whose keyword arguments have no key
    twice) passed one, and what the content built otherwise. *)
Theorem crequest_forwards (m u : pyval) (c : content) (kwargs p p' : Dict.t pyval) :
  build c = Ok (PDict p) ->
  has_dup (Dict.keys kwargs) = false ->
  fst (crequest response request m u c kwargs) = [Built c; Requested m u p'] ->
  (forall k, In k invalid_params -> Dict.get k p' = Dict.get k p) /\
  (forall k, k <> Str "headers" ->
             Dict.get k p' =
             match Dict.get k kwargs with
             | Some v => Some v
             | None => Dict.get k p
             end).
Proof.
  intros B N. unfold crequest. rewrite B.
  destruct (existsb _ invalid_params) eqn:V; [discriminate|].
  unfold Dict.pop.
  destruct (merge_headers p _) as [p1|] eqn:M; [|discriminate].
  cbn [fst]. intros H. inversion H; subst p'; clear H.
  assert (O : forall k, k <> Str "headers" ->
            Dict.get k (Dict.update p1 (Dict.remove (Str "headers") kwargs)) =
            match Dict.get k kwargs with
            | Some v => Some v
            | None => Dict.get k p
            end).
  { intros k Hk. apply text_eqb_neq in Hk.
    rewrite DictFacts.get_update by (apply has_dup_remove; exact N).
    rewrite (get_remove_other k _ kwargs Hk).
    rewrite (get_merge_headers_other p p1 _ k M Hk). reflexivity. }
  split; [|exact O].
  intros k Hk. rewrite O.
  - assert (A : Dict.mem k kwargs = false).
    { destruct (Dict.mem k kwargs) eqn:E; [|reflexivity].
      assert (existsb (fun name => Dict.mem name kwargs) invalid_params = true)
        by (apply existsb_exists; exists k; split; assumption).
      congruence. }
    rewrite DictFacts.mem_get in A.
    destruct (Dict.get k kwargs); [discriminate | reflexivity].
  - intros ->. cbn in Hk. intuition discriminate.
Qed.

(** X19: headers the caller passes that are false as a condition, such
    as [None] or the empty dictionary, are not merged and not
    forwarded: the [headers] of the content, if any, go to the engine as
    built. *)
Theorem crequest_ignores_falsy_headers (m u : pyval) (c : content)
  (kwargs p : Dict.t pyval) (h : pyval) :
  valid_overrides kwargs = true ->
  build c = Ok (PDict p) ->
  Dict.get (Str "headers") kwargs = Some h ->
  truthy h = false ->
  crequest response request m u c kwargs =
    ([Built c;
      Requested m u (Dict.update p (Dict.remove (Str "headers") kwargs))],
     request m u (Dict.update p (Dict.remove (Str "headers") kwargs))) /\
  Dict.get (Str "headers") (Dict.update p (Dict.remove (Str "headers") kwargs))
  = Dict.get (Str "headers") p.
Proof.
  intros V B K T.
  rewrite (crequest_valid response request m u c kwargs p V B), K.
  cbn [merge_headers]. rewrite T. cbn [andb].
  split; [reflexivity | apply headers_after_update].
Qed.

End FacadeFurther.

Lemma crequest_build_error_witness :
  crequest nat always_200 (PStr "POST") (PStr "http://localhost:8000/")
           (MultiContent (Str "form") same_name_parts MULTIPART_FORM_DATA)
           [(Str "timeout", PInt 3)]
  = ([Built (MultiContent (Str "form") same_name_parts MULTIPART_FORM_DATA)],
     Raise (DuplicateValue (Str "file"))).
Proof.
  apply (crequest_build_error nat always_200); reflexivity.
Defined.

Lemma crequest_forwards_witness :
  (forall k, In k invalid_params ->
     Dict.get k [(Str "data", report_stream 0);
                 (Str "headers",
                  PDict [(Str CONTENT_TYPE, PStr "text/markdown");
                         (Str CONTENT_DISPOSITION,
                          PStr "attachment; filename=README.md");
                         (Str "X-Extra", PStr "1")]);
                 (Str "timeout", PInt 3)]
     = Dict.get k [(Str "data", report_stream 0);
                   (Str "headers",
                    PDict [(Str CONTENT_TYPE, PStr TEXT_PLAIN);
                           (Str CONTENT_DISPOSITION,
                            PStr "attachment; filename=README.md")])]) /\
  (forall k, k <> Str "headers" ->
     Dict.get k [(Str "data", report_stream 0);
                 (Str "headers",
                  PDict [(Str CONTENT_TYPE, PStr "text/markdown");
                         (Str CONTENT_DISPOSITION,
                          PStr "attachment; filename=README.md");
                         (Str "X-Extra", PStr "1")]);
                 (Str "timeout", PInt 3)]
     = match Dict.get k overrides_with_headers with
       | Some v => Some v
       | None =>
           Dict.get k [(Str "data", report_stream 0);
                       (Str "headers",
                        PDict [(Str CONTENT_TYPE, PStr TEXT_PLAIN);
                               (Str CONTENT_DISPOSITION,
                                PStr "attachment; filename=README.md")])]
       end).
Proof.
  apply (crequest_forwards nat always_200 (PStr "POST")
           (PStr "http://localhost:8000/") readme_file overrides_with_headers);
    reflexivity.
Defined.

Lemma crequest_ignores_falsy_headers_witness :
  crequest nat always_200 (PStr "POST") (PStr "http://localhost:8000/")
           readme_file [(Str "headers", PDict []); (Str "timeout", PInt 3)]
  = ([Built readme_file;
      Requested (PStr "POST") (PStr "http://localhost:8000/")
        (Dict.update
           [(Str "data", report_stream 0);
            (Str "headers",
             PDict [(Str CONTENT_TYPE, PStr TEXT_PLAIN);
                    (Str CONTENT_DISPOSITION,
                     PStr "attachment; filename=README.md")])]
           (Dict.remove (Str "headers")
              [(Str "headers", PDict []); (Str "timeout", PInt 3)]))],
     always_200 (PStr "POST") (PStr "http://localhost:8000/")
       (Dict.update
           [(Str "data", report_stream 0);
            (Str "headers",
             PDict [(Str CONTENT_TYPE, PStr TEXT_PLAIN);
                    (Str CONTENT_DISPOSITION,
                     PStr "attachment; filename=README.md")])]
           (Dict.remove (Str "headers")
              [(Str "headers", PDict []); (Str "timeout", PInt 3)]))) /\
  Dict.get (Str "headers")
    (Dict.update
       [(Str "data", report_stream 0);
        (Str "headers",
         PDict [(Str CONTENT_TYPE, PStr TEXT_PLAIN);
                (Str CONTENT_DISPOSITION,
                 PStr "attachment; filename=README.md")])]
       (Dict.remove (Str "headers")
          [(Str "headers", PDict []); (Str "timeout", PInt 3)]))
  = Dict.get (Str "headers")
      [(Str "data", report_stream 0);
       (Str "headers",
        PDict [(Str CONTENT_TYPE, PStr TEXT_PLAIN);
               (Str CONTENT_DISPOSITION,
                PStr "attachment; filename=README.md")])].
Proof.
  apply (crequest_ignores_falsy_headers nat always_200 (PStr "POST")
           (PStr "http://localhost:8000/") readme_file
           [(Str "headers", PDict []); (Str "timeout", PInt 3)]
           [(Str "data", report_stream 0);
            (Str "headers",
             PDict [(Str CONTENT_TYPE, PStr TEXT_PLAIN);
                    (Str CONTENT_DISPOSITION,
                     PStr "attachment; filename=README.md")])]
           (PDict [])); reflexivity.
Defined.
